(** * Plant_Class.py: the tile platform and its placeable objects

    A shallow embedding of [PlatformObject] and [TilePlatform] from
    [src/Plant_Class.py], with the properties of the placement engine.

    Python values are modelled as follows.
    - [int] is unbounded, hence [Z].
    - A [PlatformObject] is a mutable object that the platform stores by
      reference: objects live in a store ([heap]) and are named by their
      location, so the grid cells, the registry and the caller all alias
      the same record.
    - [self.grid] is a list of row lists; a cell holds the integer [0] or a
      reference to an object.
    - [self.objects] is a [dict] from id to object reference.
    - [print] appends a line to the captured standard output.
    - Exceptions are results: [Raise e]. *)

From stdpp Require Import gmap strings pretty list fin_maps.

Local Open Scope Z_scope.

(** ** Exceptions and results *)

Inductive exn : Type :=
  | ValueError (msg : string)
  | IndexError
  | AttributeError.

Inductive result (A : Type) : Type :=
  | Ok (a : A)
  | Raise (e : exn).
Arguments Ok {A} a.
Arguments Raise {A} e.

Definition is_raise {A} (r : result A) : bool :=
  match r with Ok _ => false | Raise _ => true end.

(** ** Python lists: indexing, item assignment and [range] *)

(** [l[i]] accepts [-len(l) <= i < len(l)]; a negative index counts from
    the end. *)
Definition norm_index (n : nat) (i : Z) : option nat :=
  if decide (0 ≤ i < Z.of_nat n) then Some (Z.to_nat i)
  else if decide (- Z.of_nat n ≤ i < 0) then Some (Z.to_nat (Z.of_nat n + i))
  else None.

Definition getitem {A} (l : list A) (i : Z) : result A :=
  match norm_index (length l) i ≫= (l !!.) with
  | Some a => Ok a
  | None => Raise IndexError
  end.

Definition setitem {A} (l : list A) (i : Z) (a : A) : result (list A) :=
  match norm_index (length l) i with
  | Some k => Ok (<[k:=a]> l)
  | None => Raise IndexError
  end.

(** [range(a, b)]; empty when [b <= a]. *)
Definition range (a b : Z) : list Z := seqZ a (b - a).

(** [[v] * n] and [[e for _ in range(n)]]: empty for [n <= 0]. *)
Definition list_times {A} (v : A) (n : Z) : list A := replicate (Z.to_nat n) v.

(** ** PlatformObject *)

(** References to objects are locations of the object store. *)
Abbreviation loc := nat (only parsing).

Module PlatformObject.

Record t : Type := mk {
  id : string;
  width_tiles : Z;
  length_tiles : Z;
  x_coord : Z;
  y_coord : Z;
  shape_mask : list (list Z)
}.

(** [any(len(row) != width_tiles for row in shape_mask)] *)
Definition any_row_mismatch (shape_mask : list (list Z)) (width_tiles : Z) : bool :=
  existsb (fun row => negb (Z.of_nat (length row) =? width_tiles)) shape_mask.

Definition __init__ (obj_id : string) (width_tiles length_tiles : Z)
    (shape_mask : option (list (list Z))) : result t :=
  if decide (obj_id = "") then
    Raise (ValueError "Object must have a unique ID.")
  else
    match shape_mask with
    | None =>
        Ok (mk obj_id width_tiles length_tiles (-1) (-1)
              (list_times (list_times 1 width_tiles) length_tiles))
    | Some m =>
        if negb (Z.of_nat (length m) =? length_tiles) || any_row_mismatch m width_tiles
        then Raise (ValueError "Shape mask dimensions must match width_tiles and length_tiles.")
        else Ok (mk obj_id width_tiles length_tiles (-1) (-1) m)
    end.

End PlatformObject.

(** ** Grid cells and printed lines *)

(** A grid cell holds the integer [0] or a reference to the occupying
    object. *)
Inductive cell : Type :=
  | Zero
  | Obj (r : loc).

(** [cell != 0]: an object never compares equal to [0]. *)
Definition ne_zero (c : cell) : bool :=
  match c with Zero => false | Obj _ => true end.

(** The lines [TilePlatform] prints, one constructor per [print] call, with
    the values interpolated into the message. *)
Inductive line : Type :=
  | PlatformInitialized (width length : Z)
  | ErrorDuplicate (obj_id : string)
  | ErrorOutOfBounds (obj_id : string) (obj_width obj_length start_x start_y : Z)
  | ErrorOccupied (obj_id : string) (obj_width obj_length start_x start_y : Z)
  | SuccessPlaced (obj_id : string) (obj_width obj_length start_x start_y : Z).

(** ** TilePlatform *)

Module TilePlatform.

Record t : Type := mk {
  width : Z;
  length : Z;
  grid : list (list cell);
  objects : gmap string loc
}.

(** The platform together with the object store it points into and the
    lines printed so far. *)
Record state : Type := State {
  self : t;
  heap : list PlatformObject.t;
  stdout : list line
}.

Definition print (ln : line) (s : state) : state :=
  State (self s) (heap s) (stdout s ++ [ln]).

Definition __init__ (width length : Z) (heap : list PlatformObject.t)
    (stdout : list line) : result state :=
  if decide (width ≤ 0 ∨ length ≤ 0) then
    Raise (ValueError "Width and length must be positive integers.")
  else
    Ok (print (PlatformInitialized width length)
          (State (mk width length (list_times (list_times Zero width) length) ∅)
                 heap stdout)).

Definition _is_valid_position (self : t) (start_x start_y obj_width obj_length : Z) : bool :=
  if decide (start_x < 0 ∨ start_y < 0) then false
  else if decide (start_x + obj_width > width self ∨ start_y + obj_length > length self)
  then false
  else true.

(** The inner loop of [_is_area_free] over one row; [Ok false] is the
    early [return False]. *)
Fixpoint row_free (g : list (list cell)) (y : Z) (xs : list Z) : result bool :=
  match xs with
  | [] => Ok true
  | x :: xs' =>
      match getitem g y with
      | Raise e => Raise e
      | Ok row =>
          match getitem row x with
          | Raise e => Raise e
          | Ok c => if ne_zero c then Ok false else row_free g y xs'
          end
      end
  end.

Fixpoint rows_free (g : list (list cell)) (ys xs : list Z) : result bool :=
  match ys with
  | [] => Ok true
  | y :: ys' =>
      match row_free g y xs with
      | Ok true => rows_free g ys' xs
      | r => r
      end
  end.

Definition _is_area_free (self : t) (start_x start_y obj_width obj_length : Z) : result bool :=
  rows_free (grid self) (range start_y (start_y + obj_length))
            (range start_x (start_x + obj_width)).

(** [self.grid[y][x] = v]: the row list [self.grid[y]] is mutated in
    place, so the new row takes the old one's position in the grid. *)
Definition store_cell (g : list (list cell)) (y x : Z) (v : cell)
    : result unit * list (list cell) :=
  match getitem g y with
  | Raise e => (Raise e, g)
  | Ok row =>
      match setitem row x v with
      | Raise e => (Raise e, g)
      | Ok row' =>
          (Ok (), match norm_index (List.length g) y with
                  | Some i => <[i:=row']> g
                  | None => g
                  end)
      end
  end.

Fixpoint fill_row (g : list (list cell)) (y : Z) (xs : list Z) (v : cell)
    : result unit * list (list cell) :=
  match xs with
  | [] => (Ok (), g)
  | x :: xs' =>
      match store_cell g y x v with
      | (Ok _, g') => fill_row g' y xs' v
      | r => r
      end
  end.

Fixpoint fill_rows (g : list (list cell)) (ys xs : list Z) (v : cell)
    : result unit * list (list cell) :=
  match ys with
  | [] => (Ok (), g)
  | y :: ys' =>
      match fill_row g y xs v with
      | (Ok _, g') => fill_rows g' ys' xs v
      | r => r
      end
  end.

Definition set_grid (g : list (list cell)) (p : t) : t :=
  mk (width p) (length p) g (objects p).

Definition set_object (obj_id : string) (obj : loc) (p : t) : t :=
  mk (width p) (length p) (grid p) (<[obj_id:=obj]> (objects p)).

(** [obj.x_coord = start_x; obj.y_coord = start_y] *)
Definition set_coords (start_x start_y : Z) (o : PlatformObject.t) : PlatformObject.t :=
  PlatformObject.mk (PlatformObject.id o) (PlatformObject.width_tiles o)
    (PlatformObject.length_tiles o) start_x start_y (PlatformObject.shape_mask o).

Definition place_object (start_x start_y : Z) (obj : loc) (s : state)
    : result bool * state :=
  match heap s !! obj with
  | None => (Raise AttributeError, s)
  | Some o =>
      let obj_id := PlatformObject.id o in
      let obj_width := PlatformObject.width_tiles o in
      let obj_length := PlatformObject.length_tiles o in
      if decide (is_Some (objects (self s) !! obj_id)) then
        (Ok false, print (ErrorDuplicate obj_id) s)
      else if negb (_is_valid_position (self s) start_x start_y obj_width obj_length) then
        (Ok false, print (ErrorOutOfBounds obj_id obj_width obj_length start_x start_y) s)
      else
        match _is_area_free (self s) start_x start_y obj_width obj_length with
        | Raise e => (Raise e, s)
        | Ok false =>
            (Ok false, print (ErrorOccupied obj_id obj_width obj_length start_x start_y) s)
        | Ok true =>
            match fill_rows (grid (self s)) (range start_y (start_y + obj_length))
                    (range start_x (start_x + obj_width)) (Obj obj) with
            | (Raise e, g') => (Raise e, State (set_grid g' (self s)) (heap s) (stdout s))
            | (Ok _, g') =>
                (Ok true,
                 print (SuccessPlaced obj_id obj_width obj_length start_x start_y)
                   (State (set_object obj_id obj (set_grid g' (self s)))
                          (<[obj:=set_coords start_x start_y o]> (heap s))
                          (stdout s)))
            end
        end
  end.

(** [self.objects.get(obj_id)]; [None] is Python's [None]. *)
Definition get_object_instance (obj_id : string) (s : state) : option loc * state :=
  (objects (self s) !! obj_id, s).

End TilePlatform.

(** Object creation by a caller: the constructor's result is allocated at
    the next free location of the store. *)
Definition new_object (obj_id : string) (width_tiles length_tiles : Z)
    (shape_mask : option (list (list Z))) (s : TilePlatform.state)
    : result loc * TilePlatform.state :=
  match PlatformObject.__init__ obj_id width_tiles length_tiles shape_mask with
  | Raise e => (Raise e, s)
  | Ok o =>
      (Ok (length (TilePlatform.heap s)),
       TilePlatform.State (TilePlatform.self s) (TilePlatform.heap s ++ [o])
         (TilePlatform.stdout s))
  end.

(** ** Callers: sequences of operations on one platform *)

Inductive op : Type :=
  | New (obj_id : string) (width_tiles length_tiles : Z)
        (shape_mask : option (list (list Z)))
  | Place (start_x start_y : Z) (obj : loc)
  | Lookup (obj_id : string).

(** The state an operation leaves behind, whatever it returned. *)
Definition exec (c : op) (s : TilePlatform.state) : TilePlatform.state :=
  match c with
  | New obj_id w l m => snd (new_object obj_id w l m s)
  | Place x y obj => snd (TilePlatform.place_object x y obj s)
  | Lookup obj_id => snd (TilePlatform.get_object_instance obj_id s)
  end.

Definition run (ops : list op) (s : TilePlatform.state) : TilePlatform.state :=
  foldl (fun s c => exec c s) s ops.

(** What a [place_object] call that returns [True] committed: the id and
    the reference it registered, and the bounding box it wrote. *)
Record placement : Type := Placement {
  placed_id : string;
  placed_obj : loc;
  placed_x : Z;
  placed_y : Z;
  placed_width : Z;
  placed_length : Z
}.

Definition placed (c : op) (s : TilePlatform.state) : option placement :=
  match c with
  | Place x y obj =>
      match TilePlatform.place_object x y obj s with
      | (Ok true, _) =>
          (fun o => Placement (PlatformObject.id o) obj x y
                      (PlatformObject.width_tiles o) (PlatformObject.length_tiles o))
            <$> TilePlatform.heap s !! obj
      | _ => None
      end
  | _ => None
  end.

(** The successful placements of a sequence of operations, in order. *)
Fixpoint placements (ops : list op) (s : TilePlatform.state) : list placement :=
  match ops with
  | [] => []
  | c :: ops' => option_list (placed c s) ++ placements ops' (exec c s)
  end.

(** The cells of the bounding box a placement wrote. *)
Definition committed (p : placement) (cx cy : Z) : Prop :=
  placed_x p ≤ cx < placed_x p + placed_width p ∧
  placed_y p ≤ cy < placed_y p + placed_length p.

(** ** Vocabulary of the properties *)

(** A grid of [L] rows of [W] columns. *)
Definition shaped (g : list (list cell)) (W L : Z) : Prop :=
  Z.of_nat (length g) = L ∧ Forall (fun row => Z.of_nat (length row) = W) g.

Definition wf (p : TilePlatform.t) : Prop :=
  shaped (TilePlatform.grid p) (TilePlatform.width p) (TilePlatform.length p).

(** The content of the cell in column [cx] of row [cy], for coordinates
    on the grid. *)
Definition cell_at (g : list (list cell)) (cy cx : Z) : option cell :=
  if decide (0 ≤ cy ∧ 0 ≤ cx) then
    g !! Z.to_nat cy ≫= (fun row => row !! Z.to_nat cx)
  else None.

(** The bounding box [[x, x+w) x [y, y+l)]. *)
Definition in_box (x y w l cx cy : Z) : Prop :=
  x ≤ cx < x + w ∧ y ≤ cy < y + l.

Definition out_of_bounds (p : TilePlatform.t) (x y w l : Z) : Prop :=
  x < 0 ∨ y < 0 ∨ x + w > TilePlatform.width p ∨ y + l > TilePlatform.length p.

Definition box_free (g : list (list cell)) (x y w l : Z) : Prop :=
  ∀ cx cy, in_box x y w l cx cy → cell_at g cy cx = Some Zero.

Definition box_occupied (g : list (list cell)) (x y w l : Z) : Prop :=
  ∃ cx cy r, in_box x y w l cx cy ∧ cell_at g cy cx = Some (Obj r).

(** [g'] is [g] with [v] written into the cells of the rows [ys] at the columns [xs]. *)
Definition written (g g' : list (list cell)) (ys xs : list Z) (v : cell) : Prop :=
  ∀ cy cx, cell_at g' cy cx =
           if decide (cy ∈ ys ∧ cx ∈ xs) then Some v else cell_at g cy cx.

(** The bounding box an object carries: its dimensions at its recorded
    coordinates. *)
Definition footprint (o : PlatformObject.t) (cx cy : Z) : Prop :=
  in_box (PlatformObject.x_coord o) (PlatformObject.y_coord o)
         (PlatformObject.width_tiles o) (PlatformObject.length_tiles o) cx cy.

(** The state still carries a placement: the registry maps its id to its
    reference, and the object referred to has that id, the dimensions of
    the box and the coordinates it was placed at. *)
Definition recorded (s : TilePlatform.state) (p : placement) : Prop :=
  TilePlatform.objects (TilePlatform.self s) !! placed_id p = Some (placed_obj p) ∧
  ∃ o, TilePlatform.heap s !! placed_obj p = Some o ∧
       PlatformObject.id o = placed_id p ∧
       PlatformObject.width_tiles o = placed_width p ∧
       PlatformObject.length_tiles o = placed_length p ∧
       PlatformObject.x_coord o = placed_x p ∧
       PlatformObject.y_coord o = placed_y p.

(** The three ways [place_object] rejects a request, and the one its
    printed line reports. *)
Inductive failure : Type :=
  | DuplicateIdError
  | OutOfBoundsError
  | CollisionError.

Definition failure_of_line (ln : line) : option failure :=
  match ln with
  | ErrorDuplicate _ => Some DuplicateIdError
  | ErrorOutOfBounds _ _ _ _ _ => Some OutOfBoundsError
  | ErrorOccupied _ _ _ _ _ => Some CollisionError
  | _ => None
  end.

(** The kind of the failure the last printed line reports. *)
Definition reported (s : TilePlatform.state) : option failure :=
  last (TilePlatform.stdout s) ≫= failure_of_line.

(** The object with another mask. *)
Definition with_mask (m : list (list Z)) (o : PlatformObject.t) : PlatformObject.t :=
  PlatformObject.mk (PlatformObject.id o) (PlatformObject.width_tiles o)
    (PlatformObject.length_tiles o) (PlatformObject.x_coord o)
    (PlatformObject.y_coord o) m.

(** What holds of every platform a caller can build: the grid keeps its
    shape, each registered id names a stored object of that id whose
    bounding box is on the grid, and a cell refers to an object exactly
    when it lies in the bounding box of that registered object. *)
Record Inv (s : TilePlatform.state) : Prop := {
  inv_wf : wf (TilePlatform.self s);
  inv_registry : ∀ i r,
    TilePlatform.objects (TilePlatform.self s) !! i = Some r →
    ∃ o, TilePlatform.heap s !! r = Some o ∧ PlatformObject.id o = i ∧
         TilePlatform._is_valid_position (TilePlatform.self s)
           (PlatformObject.x_coord o) (PlatformObject.y_coord o)
           (PlatformObject.width_tiles o) (PlatformObject.length_tiles o) = true;
  inv_cells : ∀ cy cx r,
    cell_at (TilePlatform.grid (TilePlatform.self s)) cy cx = Some (Obj r) ↔
    ∃ o, TilePlatform.heap s !! r = Some o ∧
         TilePlatform.objects (TilePlatform.self s) !! PlatformObject.id o = Some r ∧
         footprint o cx cy
}.

(** The object with its mask replaced, in the store. *)
Definition remask (obj : loc) (m : list (list Z)) (s : TilePlatform.state)
    : TilePlatform.state :=
  TilePlatform.State (TilePlatform.self s)
    (alter (with_mask m) obj (TilePlatform.heap s)) (TilePlatform.stdout s).

(** An all-ones mask of [rows] rows and [cols] columns. *)
Definition all_true_rectangle (m : list (list Z)) (rows cols : Z) : Prop :=
  Z.of_nat (length m) = rows ∧
  Forall (fun row => Z.of_nat (length row) = cols ∧ Forall (fun b => b = 1) row) m.

(** ** The platform of the demonstration in [run_tests]

    A 10 x 5 platform and the five objects the demonstration builds, at the
    store locations 0 to 4. *)

Definition GLOBAL_GROWTH_MASKS (stage : string) : option (list (list Z)) :=
  if decide (stage = "seedling") then Some [[1]]
  else if decide (stage = "bush") then Some [[1; 1]; [1; 0]]
  else if decide (stage = "mature_tree") then Some [[1; 1; 1]; [1; 1; 0]; [1; 0; 0]]
  else None.

(** [Plant(plant_id, ...)]: a 1 x 1 object with the seedling mask. The
    attributes of a plant that the platform never reads (name, species,
    rates) are left out. *)
Definition Plant_init (plant_id : string) : result PlatformObject.t :=
  match GLOBAL_GROWTH_MASKS "seedling" with
  | Some initial_mask => PlatformObject.__init__ plant_id 1 1 (Some initial_mask)
  | None => Raise AttributeError
  end.

Definition demo_objects : list PlatformObject.t :=
  [ PlatformObject.mk "HouseA" 3 2 (-1) (-1) [[1; 1; 1]; [1; 1; 1]];
    PlatformObject.mk "TreeX" 3 3 (-1) (-1) [[1; 1; 1]; [1; 1; 0]; [1; 0; 0]];
    PlatformObject.mk "PlantA" 1 1 (-1) (-1) [[1]];
    PlatformObject.mk "Rock" 1 1 (-1) (-1) [[1]];
    PlatformObject.mk "Fence" 2 1 (-1) (-1) [[1; 1]] ].

Definition demo_empty : TilePlatform.state :=
  TilePlatform.State
    (TilePlatform.mk 10 5 (list_times (list_times Zero 10) 5) ∅)
    demo_objects [PlatformInitialized 10 5].

(** After tests 3.1 and 3.2: HouseA at (1, 1) and PlantA at (7, 4). *)
Definition demo_placed : TilePlatform.state :=
  run [Place 1 1 0%nat; Place 7 4 2%nat] demo_empty.

(** ** Rendering: [__repr__] and [display]

    The text of an object depends on two things the store record does not
    carry: the class of the object ([PlatformObject] or a subclass such as
    [Plant]) and its [name] attribute, which a plant has and a plain
    object has not. They are given per reference. Characters are those of
    [string]; [len] is [String.length]. *)

Record dyn : Type := Dyn {
  class_name : string;
  name : option string
}.

(** [v * n] for a string. *)
Fixpoint str_times (v : string) (n : nat) : string :=
  match n with
  | O => ""
  | S n' => v +:+ str_times v n'
  end.

(** The format specifications [{v:>{width}}] and [{v:<width}]: padding
    with spaces up to the width, nothing cut. *)
Definition rjust (width : nat) (v : string) : string :=
  str_times " " (width - String.length v) +:+ v.

Definition ljust (width : nat) (v : string) : string :=
  v +:+ str_times " " (width - String.length v).

(** [PlatformObject.__repr__], which is also what [str] of an object
    gives. *)
Definition __repr__ (d : dyn) (o : PlatformObject.t) : string :=
  class_name d +:+ "(ID='" +:+ PlatformObject.id o +:+ "', Dim=" +:+
  pretty (PlatformObject.width_tiles o) +:+ "x" +:+
  pretty (PlatformObject.length_tiles o) +:+ ")".

(** The first pass of [display] over one cell: the label [display_val]. *)
Definition display_val (dyns : loc → dyn) (heap : list PlatformObject.t) (cell_value : cell)
    : result string :=
  match cell_value with
  | Zero => Ok "."
  | Obj r =>
      match heap !! r with
      | None => Raise AttributeError
      | Some o =>
          let obj_id := PlatformObject.id o in
          let obj_name := default obj_id (name (dyns r)) in
          Ok (obj_id +:+ "/" +:+ obj_name)
      end
  end.

(** The first pass over a row and over the grid: [display_row] and
    [display_grid] are built, [max_len] is the running maximum of the
    label lengths. *)
Fixpoint display_row (dyns : loc → dyn) (heap : list PlatformObject.t) (row : list cell)
    (max_len : nat) : result (list string * nat) :=
  match row with
  | [] => Ok ([], max_len)
  | cell_value :: row' =>
      match display_val dyns heap cell_value with
      | Raise e => Raise e
      | Ok v =>
          match display_row dyns heap row' (max_len `max` String.length v) with
          | Raise e => Raise e
          | Ok (vs, m) => Ok (v :: vs, m)
          end
      end
  end.

Fixpoint display_grid (dyns : loc → dyn) (heap : list PlatformObject.t)
    (grid : list (list cell)) (max_len : nat) : result (list (list string) * nat) :=
  match grid with
  | [] => Ok ([], max_len)
  | row :: grid' =>
      match display_row dyns heap row max_len with
      | Raise e => Raise e
      | Ok (vs, m) =>
          match display_grid dyns heap grid' m with
          | Raise e => Raise e
          | Ok (vss, m') => Ok (vs :: vss, m')
          end
      end
  end.

(** The second pass over one cell: [str(cell) if cell != 0 else "."]. *)
Definition cell_str (dyns : loc → dyn) (heap : list PlatformObject.t) (c : cell)
    : result string :=
  match c with
  | Zero => Ok "."
  | Obj r =>
      match heap !! r with
      | None => Raise AttributeError
      | Some o => Ok (__repr__ (dyns r) o)
      end
  end.

Fixpoint row_str (dyns : loc → dyn) (heap : list PlatformObject.t) (row : list cell)
    (max_len : nat) (acc : string) : result string :=
  match row with
  | [] => Ok acc
  | c :: row' =>
      match cell_str dyns heap c with
      | Raise e => Raise e
      | Ok v => row_str dyns heap row' max_len (acc +:+ rjust max_len v +:+ " ")
      end
  end.

(** [for i, row in enumerate(self.grid)], from the index [i] on. *)
Fixpoint grid_rows (dyns : loc → dyn) (heap : list PlatformObject.t) (i : nat)
    (grid : list (list cell)) (max_len : nat) : result (list string) :=
  match grid with
  | [] => Ok []
  | row :: grid' =>
      match row_str dyns heap row max_len (ljust 2 (pretty i) +:+ "|") with
      | Raise e => Raise e
      | Ok ln =>
          match grid_rows dyns heap (S i) grid' max_len with
          | Raise e => Raise e
          | Ok lns => Ok (ln :: lns)
          end
      end
  end.

Definition display_title : string :=
  String (Ascii.ascii_of_nat 10) "--- Platform Grid (Y=Row, X=Column) ---".

Definition display_footer : string := "---------------------------------------".

Definition display_header (width : Z) (max_len : nat) : string :=
  "   " +:+ String.concat " " ((fun i : Z => rjust max_len (pretty i)) <$> range 0 width).

(** [display] reads the platform and the store and prints; its result is
    the list of the strings printed, one per [print] call. A reference
    without object cannot exist in Python; here it ends the rendering with
    an exception and no output. *)
Definition display (dyns : loc → dyn) (s : TilePlatform.state) : result (list string) :=
  match display_grid dyns (TilePlatform.heap s) (TilePlatform.grid (TilePlatform.self s)) 1 with
  | Raise e => Raise e
  | Ok (_, max_len) =>
      let header := display_header (TilePlatform.width (TilePlatform.self s)) max_len in
      match grid_rows dyns (TilePlatform.heap s) 0
              (TilePlatform.grid (TilePlatform.self s)) max_len with
      | Raise e => Raise e
      | Ok rows =>
          Ok ([display_title; header;
               "  " +:+ str_times "-" (String.length header - 3)]
              ++ rows ++ [display_footer])
      end
  end.

(** The classes and names of the objects of the demonstration: PlantA is
    the plant named Rose. *)
Definition demo_dyns (r : loc) : dyn :=
  if decide (r = 2%nat) then Dyn "Plant" (Some "Rose") else Dyn "PlatformObject" None.

(** * Properties *)

(** ** Indexing inside the list *)

Section Indexing.
Context {A : Type}.
Implicit Types (l : list A) (i : Z).

Lemma norm_index_nonneg (n : nat) i :
  0 ≤ i < Z.of_nat n → norm_index n i = Some (Z.to_nat i).
Proof. intros Hi. unfold norm_index. by rewrite decide_True. Qed.

Lemma getitem_lookup l i a :
  0 ≤ i → l !! Z.to_nat i = Some a → getitem l i = Ok a.
Proof.
  intros Hi Hl. unfold getitem.
  rewrite norm_index_nonneg; [by simpl; rewrite Hl|].
  apply lookup_lt_Some in Hl. lia.
Qed.

Lemma setitem_insert l i a :
  0 ≤ i < Z.of_nat (length l) → setitem l i a = Ok (<[Z.to_nat i:=a]> l).
Proof. intros Hi. unfold setitem. by rewrite norm_index_nonneg. Qed.
End Indexing.

Lemma elem_of_range (a b k : Z) : k ∈ range a b ↔ a ≤ k < b.
Proof. unfold range. rewrite elem_of_seqZ. lia. Qed.

(** ** Cells of a shaped grid *)

Lemma shaped_row g W L (i : nat) row :
  shaped g W L → g !! i = Some row → Z.of_nat (length row) = W.
Proof.
  intros [_ Hrows] Hi. rewrite Forall_forall in Hrows.
  apply Hrows. by eapply list_elem_of_lookup_2.
Qed.

Lemma shaped_cell g W L cy cx :
  shaped g W L → 0 ≤ cy < L → 0 ≤ cx < W →
  ∃ row c, g !! Z.to_nat cy = Some row ∧ row !! Z.to_nat cx = Some c ∧
           cell_at g cy cx = Some c.
Proof.
  intros Hg Hy Hx.
  destruct (lookup_lt_is_Some_2 g (Z.to_nat cy)) as [row Hrow].
  { destruct Hg as [Hlen _]. lia. }
  pose proof (shaped_row _ _ _ _ _ Hg Hrow) as Hw.
  destruct (lookup_lt_is_Some_2 row (Z.to_nat cx)) as [c Hc]; [lia|].
  exists row, c. split_and!; [done..|].
  unfold cell_at. rewrite decide_True by lia. by rewrite Hrow.
Qed.

Lemma cell_at_Some g W L cy cx c :
  shaped g W L → cell_at g cy cx = Some c → 0 ≤ cy < L ∧ 0 ≤ cx < W.
Proof.
  intros Hg. unfold cell_at. case_decide as Hnn; [|done].
  destruct (g !! Z.to_nat cy) as [row|] eqn:Hrow; [|done]. simpl. intros Hc.
  pose proof (shaped_row _ _ _ _ _ Hg Hrow) as Hw.
  apply lookup_lt_Some in Hrow, Hc. destruct Hg as [Hlen _]. lia.
Qed.

(** ** The collision scan *)

Lemma row_free_spec g W L y xs :
  shaped g W L → 0 ≤ y < L → Forall (fun x => 0 ≤ x < W) xs →
  (TilePlatform.row_free g y xs = Ok true ∧
     Forall (fun x => cell_at g y x = Some Zero) xs) ∨
  (TilePlatform.row_free g y xs = Ok false ∧
     Exists (fun x => ∃ r, cell_at g y x = Some (Obj r)) xs).
Proof.
  intros Hg Hy. induction 1 as [|x xs Hx Hxs IH]; simpl.
  { left. by split. }
  destruct (shaped_cell _ _ _ y x Hg Hy Hx) as (row & c & Hrow & Hc & Hat).
  rewrite (getitem_lookup _ _ _ (proj1 Hy) Hrow).
  rewrite (getitem_lookup _ _ _ (proj1 Hx) Hc).
  destruct c as [|r]; simpl.
  - destruct IH as [[-> Hall]|[-> Hex]].
    + left. split; [done|]. by constructor.
    + right. split; [done|]. by apply Exists_cons_tl.
  - right. split; [done|]. apply Exists_cons_hd. by exists r.
Qed.

Lemma rows_free_spec g W L ys xs :
  shaped g W L → Forall (fun y => 0 ≤ y < L) ys → Forall (fun x => 0 ≤ x < W) xs →
  (TilePlatform.rows_free g ys xs = Ok true ∧
     Forall (fun y => Forall (fun x => cell_at g y x = Some Zero) xs) ys) ∨
  (TilePlatform.rows_free g ys xs = Ok false ∧
     Exists (fun y => Exists (fun x => ∃ r, cell_at g y x = Some (Obj r)) xs) ys).
Proof.
  intros Hg Hys Hxs. induction Hys as [|y ys Hy Hys IH]; simpl.
  { left. by split. }
  destruct (row_free_spec _ _ _ y xs Hg Hy Hxs) as [[-> Hall]|[-> Hex]].
  - destruct IH as [[-> Hall']|[-> Hex']].
    + left. split; [done|]. by constructor.
    + right. split; [done|]. by apply Exists_cons_tl.
  - right. split; [done|]. by apply Exists_cons_hd.
Qed.

Lemma valid_position_spec p x y w l :
  TilePlatform._is_valid_position p x y w l = true ↔ ¬ out_of_bounds p x y w l.
Proof.
  unfold TilePlatform._is_valid_position, out_of_bounds.
  repeat case_decide; split; intros; try done; lia.
Qed.

Lemma valid_position_false p x y w l :
  TilePlatform._is_valid_position p x y w l = false ↔ out_of_bounds p x y w l.
Proof.
  rewrite <- not_true_iff_false, valid_position_spec.
  unfold out_of_bounds. split; [|tauto]. intros H.
  destruct (decide (x < 0)); [tauto|]. destruct (decide (y < 0)); [tauto|].
  destruct (decide (x + w > TilePlatform.width p)); [tauto|].
  destruct (decide (y + l > TilePlatform.length p)); tauto.
Qed.

Lemma range_on_grid a n B :
  0 ≤ a → a + n ≤ B → Forall (fun k => 0 ≤ k < B) (range a (a + n)).
Proof. intros. apply Forall_forall. intros k Hk%elem_of_range. lia. Qed.

Lemma area_free_spec p x y w l :
  wf p → ¬ out_of_bounds p x y w l →
  (TilePlatform._is_area_free p x y w l = Ok true ∧
     box_free (TilePlatform.grid p) x y w l) ∨
  (TilePlatform._is_area_free p x y w l = Ok false ∧
     box_occupied (TilePlatform.grid p) x y w l).
Proof.
  intros Hwf Hin. unfold out_of_bounds in Hin.
  unfold TilePlatform._is_area_free.
  destruct (rows_free_spec (TilePlatform.grid p) _ _
              (range y (y + l)) (range x (x + w)) Hwf) as [[-> Hall]|[-> Hex]].
  - apply range_on_grid; lia.
  - apply range_on_grid; lia.
  - left. split; [done|]. intros cx cy [Hcx Hcy].
    rewrite Forall_forall in Hall.
    specialize (Hall cy (proj2 (elem_of_range _ _ _) Hcy)).
    rewrite Forall_forall in Hall. apply Hall. by apply elem_of_range.
  - right. split; [done|].
    apply Exists_exists in Hex as (cy & Hcy%elem_of_range & Hex).
    apply Exists_exists in Hex as (cx & Hcx%elem_of_range & r & Hr).
    by exists cx, cy, r.
Qed.

(** ** The commit loops *)

(** Case analysis on the membership tests of nested boxes. *)
Ltac box_cases :=
  repeat case_decide; try done; exfalso;
  repeat match goal with
         | H : context [_ ∈ _ :: _] |- _ => rewrite elem_of_cons in H
         | H : context [_ ∈ []] |- _ => rewrite elem_of_nil in H
         | H : context [_ ∈ range _ _] |- _ => rewrite elem_of_range in H
         end;
  tauto.

Lemma store_cell_spec g W L y x v :
  shaped g W L → 0 ≤ y < L → 0 ≤ x < W →
  ∃ g', TilePlatform.store_cell g y x v = (Ok (), g') ∧ shaped g' W L ∧
        written g g' [y] [x] v.
Proof.
  intros Hg Hy Hx.
  destruct (shaped_cell _ _ _ y x Hg Hy Hx) as (row & c & Hrow & Hc & _).
  pose proof (shaped_row _ _ _ _ _ Hg Hrow) as Hw.
  pose proof Hg as [Hlen Hrows].
  exists (<[Z.to_nat y:=<[Z.to_nat x:=v]> row]> g).
  unfold TilePlatform.store_cell.
  rewrite (getitem_lookup _ _ _ (proj1 Hy) Hrow).
  rewrite setitem_insert by lia.
  rewrite norm_index_nonneg by lia.
  split_and!; [done| |].
  - split; [by rewrite length_insert|].
    apply Forall_insert; [done|]. by rewrite length_insert.
  - intros cy cx. unfold cell_at.
    case_decide as Hnn.
    + destruct (decide (cy = y)) as [->|Hne].
      * rewrite list_lookup_insert_eq by lia. simpl.
        destruct (decide (cx = x)) as [->|Hnx].
        -- rewrite list_lookup_insert_eq by lia.
           rewrite decide_True; [done|by split; apply list_elem_of_singleton].
        -- rewrite list_lookup_insert_ne by lia. rewrite Hrow. simpl.
           rewrite decide_False; [done|].
           intros [_ ?%list_elem_of_singleton]. done.
      * rewrite list_lookup_insert_ne by lia.
        rewrite decide_False; [done|].
        intros [?%list_elem_of_singleton _]. done.
    + rewrite decide_False; [done|].
      intros [->%list_elem_of_singleton ->%list_elem_of_singleton]. lia.
Qed.

Lemma fill_row_spec g W L y xs v :
  shaped g W L → 0 ≤ y < L → Forall (fun x => 0 ≤ x < W) xs →
  ∃ g', TilePlatform.fill_row g y xs v = (Ok (), g') ∧ shaped g' W L ∧
        written g g' [y] xs v.
Proof.
  intros Hg Hy Hxs. revert g Hg.
  induction Hxs as [|x xs Hx Hxs IH]; intros g Hg; simpl.
  { exists g. split_and!; [done..|]. intros cy cx.
    rewrite decide_False; [done|]. intros [_ ?%elem_of_nil]. done. }
  destruct (store_cell_spec g W L y x v Hg Hy Hx) as (g1 & -> & Hg1 & Hw1).
  destruct (IH g1 Hg1) as (g' & -> & Hg' & Hw').
  exists g'. split_and!; [done..|]. intros cy cx.
  rewrite Hw', Hw1. box_cases.
Qed.

Lemma fill_rows_spec g W L ys xs v :
  shaped g W L → Forall (fun y => 0 ≤ y < L) ys → Forall (fun x => 0 ≤ x < W) xs →
  ∃ g', TilePlatform.fill_rows g ys xs v = (Ok (), g') ∧ shaped g' W L ∧
        written g g' ys xs v.
Proof.
  intros Hg Hys Hxs. revert g Hg.
  induction Hys as [|y ys Hy Hys IH]; intros g Hg; simpl.
  { exists g. split_and!; [done..|]. intros cy cx.
    rewrite decide_False; [done|]. intros [?%elem_of_nil _]. done. }
  destruct (fill_row_spec g W L y xs v Hg Hy Hxs) as (g1 & -> & Hg1 & Hw1).
  destruct (IH g1 Hg1) as (g' & -> & Hg' & Hw').
  exists g'. split_and!; [done..|]. intros cy cx.
  rewrite Hw', Hw1. box_cases.
Qed.

(** The commit of a bounding box that lies on the grid. *)
Lemma fill_box_spec p x y w l v :
  wf p → ¬ out_of_bounds p x y w l →
  ∃ g', TilePlatform.fill_rows (TilePlatform.grid p) (range y (y + l))
          (range x (x + w)) v = (Ok (), g') ∧
        shaped g' (TilePlatform.width p) (TilePlatform.length p) ∧
        ∀ cy cx, cell_at g' cy cx =
                 if decide (in_box x y w l cx cy) then Some v
                 else cell_at (TilePlatform.grid p) cy cx.
Proof.
  intros Hwf Hin. unfold out_of_bounds in Hin.
  destruct (fill_rows_spec (TilePlatform.grid p) _ _
              (range y (y + l)) (range x (x + w)) v Hwf) as (g' & Hfill & Hg' & Hw).
  - apply range_on_grid; lia.
  - apply range_on_grid; lia.
  - exists g'. split_and!; [done..|]. intros cy cx. rewrite Hw.
    unfold in_box. box_cases.
Qed.

(** ** [place_object], branch by branch *)

Lemma reported_print ln s :
  reported (TilePlatform.print ln s) = failure_of_line ln.
Proof. unfold reported, TilePlatform.print. simpl. by rewrite last_snoc. Qed.

(** A call that returns [False] only printed a rejection line. *)
Lemma place_false_inv x y obj s s' :
  TilePlatform.place_object x y obj s = (Ok false, s') →
  ∃ ln, s' = TilePlatform.print ln s ∧ is_Some (failure_of_line ln).
Proof.
  unfold TilePlatform.place_object.
  destruct (TilePlatform.heap s !! obj) as [o|]; [|done].
  case_decide; [intros [= <-]; eexists; split; [done|by eexists]|].
  destruct (TilePlatform._is_valid_position _ _ _ _ _); simpl;
    [|intros [= <-]; eexists; split; [done|by eexists]].
  destruct (TilePlatform._is_area_free _ _ _ _ _) as [[|]|]; [| |done].
  - destruct (TilePlatform.fill_rows _ _ _ _) as [[[]|e] g']; done.
  - intros [= <-]. eexists. split; [done|by eexists].
Qed.

Lemma place_duplicate x y obj s o :
  TilePlatform.heap s !! obj = Some o →
  is_Some (TilePlatform.objects (TilePlatform.self s) !! PlatformObject.id o) →
  TilePlatform.place_object x y obj s =
    (Ok false, TilePlatform.print (ErrorDuplicate (PlatformObject.id o)) s).
Proof.
  intros Ho Hreg. unfold TilePlatform.place_object. rewrite Ho.
  by rewrite decide_True.
Qed.

Lemma place_outside x y obj s o :
  TilePlatform.heap s !! obj = Some o →
  TilePlatform.objects (TilePlatform.self s) !! PlatformObject.id o = None →
  out_of_bounds (TilePlatform.self s) x y
    (PlatformObject.width_tiles o) (PlatformObject.length_tiles o) →
  TilePlatform.place_object x y obj s =
    (Ok false,
     TilePlatform.print
       (ErrorOutOfBounds (PlatformObject.id o) (PlatformObject.width_tiles o)
          (PlatformObject.length_tiles o) x y) s).
Proof.
  intros Ho Hreg Hout%valid_position_false. unfold TilePlatform.place_object.
  rewrite Ho, decide_False, Hout; [done|].
  rewrite Hreg. by intros [? ?].
Qed.

Lemma place_inside x y obj s o :
  wf (TilePlatform.self s) →
  TilePlatform.heap s !! obj = Some o →
  TilePlatform.objects (TilePlatform.self s) !! PlatformObject.id o = None →
  ¬ out_of_bounds (TilePlatform.self s) x y
      (PlatformObject.width_tiles o) (PlatformObject.length_tiles o) →
  (box_occupied (TilePlatform.grid (TilePlatform.self s)) x y
     (PlatformObject.width_tiles o) (PlatformObject.length_tiles o) ∧
   TilePlatform.place_object x y obj s =
     (Ok false,
      TilePlatform.print
        (ErrorOccupied (PlatformObject.id o) (PlatformObject.width_tiles o)
           (PlatformObject.length_tiles o) x y) s)) ∨
  (box_free (TilePlatform.grid (TilePlatform.self s)) x y
     (PlatformObject.width_tiles o) (PlatformObject.length_tiles o) ∧
   ∃ g',
     TilePlatform.place_object x y obj s =
       (Ok true,
        TilePlatform.print
          (SuccessPlaced (PlatformObject.id o) (PlatformObject.width_tiles o)
             (PlatformObject.length_tiles o) x y)
          (TilePlatform.State
             (TilePlatform.mk (TilePlatform.width (TilePlatform.self s))
                (TilePlatform.length (TilePlatform.self s)) g'
                (<[PlatformObject.id o:=obj]>
                   (TilePlatform.objects (TilePlatform.self s))))
             (<[obj:=TilePlatform.set_coords x y o]> (TilePlatform.heap s))
             (TilePlatform.stdout s))) ∧
     shaped g' (TilePlatform.width (TilePlatform.self s))
       (TilePlatform.length (TilePlatform.self s)) ∧
     ∀ cy cx,
       cell_at g' cy cx =
       if decide (in_box x y (PlatformObject.width_tiles o)
                    (PlatformObject.length_tiles o) cx cy)
       then Some (Obj obj)
       else cell_at (TilePlatform.grid (TilePlatform.self s)) cy cx).
Proof.
  intros Hwf Ho Hreg Hin. unfold TilePlatform.place_object.
  rewrite Ho, decide_False by (rewrite Hreg; by intros [? ?]).
  rewrite (proj2 (valid_position_spec _ _ _ _ _) Hin). simpl.
  destruct (area_free_spec _ _ _ _ _ Hwf Hin) as [[-> Hfree]|[-> Hocc]].
  - right. split; [done|].
    destruct (fill_box_spec _ _ _ _ _ (Obj obj) Hwf Hin) as (g' & -> & Hg' & Hcells).
    by exists g'.
  - left. by split.
Qed.

Lemma box_free_not_occupied g x y w l :
  box_free g x y w l → ¬ box_occupied g x y w l.
Proof. intros Hfree (cx & cy & r & Hin & Hr). by rewrite (Hfree _ _ Hin) in Hr. Qed.

(** ** Rejected requests *)

(** C1. On every platform, a request to place an object whose id is not
    registered and whose bounding box [[x, x+w) x [y, y+l)] leaves the
    grid ([x < 0], [y < 0], [x + w > W] or [y + l > L]) returns [False],
    reports the out-of-bounds rejection, and leaves the grid and the
    registry as they were. *)
Theorem place_out_of_bounds_fails s x y obj o :
  TilePlatform.heap s !! obj = Some o →
  TilePlatform.objects (TilePlatform.self s) !! PlatformObject.id o = None →
  x < 0 ∨ y < 0 ∨
    x + PlatformObject.width_tiles o > TilePlatform.width (TilePlatform.self s) ∨
    y + PlatformObject.length_tiles o > TilePlatform.length (TilePlatform.self s) →
  ∃ s', TilePlatform.place_object x y obj s = (Ok false, s') ∧
        reported s' = Some OutOfBoundsError ∧
        TilePlatform.grid (TilePlatform.self s') = TilePlatform.grid (TilePlatform.self s) ∧
        TilePlatform.objects (TilePlatform.self s') =
          TilePlatform.objects (TilePlatform.self s).
Proof.
  intros Ho Hreg Hout. eexists. split; [by apply place_outside|].
  by rewrite reported_print.
Qed.

Lemma place_out_of_bounds_fails_witness :
  ∃ s', TilePlatform.place_object 10 0 3%nat demo_placed = (Ok false, s') ∧
        reported s' = Some OutOfBoundsError ∧
        TilePlatform.grid (TilePlatform.self s') =
          TilePlatform.grid (TilePlatform.self demo_placed) ∧
        TilePlatform.objects (TilePlatform.self s') =
          TilePlatform.objects (TilePlatform.self demo_placed).
Proof.
  apply (place_out_of_bounds_fails demo_placed 10 0 3%nat
           (PlatformObject.mk "Rock" 1 1 (-1) (-1) [[1]])).
  - vm_compute. reflexivity.
  - vm_compute. reflexivity.
  - right. right. left. vm_compute. reflexivity.
Defined.

(** C5. On every platform, a request to place an object whose id is
    already in the registry returns [False] and reports the duplicate-id
    rejection, whatever the target coordinates, whether or not the target
    area is free and on the grid, and also when the object is the very
    instance registered under that id. *)
Theorem place_registered_id_fails s x y obj o :
  TilePlatform.heap s !! obj = Some o →
  is_Some (TilePlatform.objects (TilePlatform.self s) !! PlatformObject.id o) →
  ∃ s', TilePlatform.place_object x y obj s = (Ok false, s') ∧
        reported s' = Some DuplicateIdError ∧
        TilePlatform.self s' = TilePlatform.self s ∧
        TilePlatform.heap s' = TilePlatform.heap s.
Proof.
  intros Ho Hreg. eexists. split; [by apply place_duplicate|].
  by rewrite reported_print.
Qed.

(** Test 3.7 of the demonstration, and the registered instance offered
    again at its own coordinates. *)
Lemma place_registered_id_fails_witness :
  (∃ s', TilePlatform.place_object 6 1 0%nat demo_placed = (Ok false, s') ∧
         reported s' = Some DuplicateIdError ∧
         TilePlatform.self s' = TilePlatform.self demo_placed ∧
         TilePlatform.heap s' = TilePlatform.heap demo_placed) ∧
  (∃ s', TilePlatform.place_object 1 1 0%nat demo_placed = (Ok false, s') ∧
         reported s' = Some DuplicateIdError ∧
         TilePlatform.self s' = TilePlatform.self demo_placed ∧
         TilePlatform.heap s' = TilePlatform.heap demo_placed).
Proof.
  split.
  - apply (place_registered_id_fails demo_placed 6 1 0%nat
             (PlatformObject.mk "HouseA" 3 2 1 1 [[1; 1; 1]; [1; 1; 1]])).
    + vm_compute. reflexivity.
    + exists 0%nat. vm_compute. reflexivity.
  - apply (place_registered_id_fails demo_placed 1 1 0%nat
             (PlatformObject.mk "HouseA" 3 2 1 1 [[1; 1; 1]; [1; 1; 1]])).
    + vm_compute. reflexivity.
    + exists 0%nat. vm_compute. reflexivity.
Defined.

(** C4. Whatever the platform and the request, a [place_object] call that
    returns [False] leaves the grid and the registry (the whole platform
    record) identical to what they were before the call; it only printed
    its rejection line. *)
Theorem place_failure_is_transactional s x y obj s' :
  TilePlatform.place_object x y obj s = (Ok false, s') →
  TilePlatform.grid (TilePlatform.self s') = TilePlatform.grid (TilePlatform.self s) ∧
  TilePlatform.objects (TilePlatform.self s') =
    TilePlatform.objects (TilePlatform.self s) ∧
  TilePlatform.self s' = TilePlatform.self s ∧
  ∃ k, reported s' = Some k.
Proof.
  intros (ln & -> & [k Hk])%place_false_inv. split_and!; [done..|].
  exists k. by rewrite reported_print.
Qed.

(** Test 3.6 of the demonstration: the fence on top of the house. *)
Lemma place_failure_is_transactional_witness :
  TilePlatform.grid (TilePlatform.self (snd (TilePlatform.place_object 2 2 4%nat demo_placed))) =
    TilePlatform.grid (TilePlatform.self demo_placed) ∧
  TilePlatform.objects
    (TilePlatform.self (snd (TilePlatform.place_object 2 2 4%nat demo_placed))) =
    TilePlatform.objects (TilePlatform.self demo_placed) ∧
  TilePlatform.self (snd (TilePlatform.place_object 2 2 4%nat demo_placed)) =
    TilePlatform.self demo_placed ∧
  ∃ k, reported (snd (TilePlatform.place_object 2 2 4%nat demo_placed)) = Some k.
Proof.
  apply (place_failure_is_transactional demo_placed 2 2 4%nat).
  vm_compute. reflexivity.
Defined.

(** C10. Whatever the platform and the request, a [place_object] call
    that returns [False] leaves the object store untouched: the object
    passed keeps its [x_coord] and [y_coord], so an unplaced object keeps
    the sentinel [-1] and a placed one offered again keeps the coordinates
    it was placed at. *)
Theorem place_failure_keeps_coordinates s x y obj s' :
  TilePlatform.place_object x y obj s = (Ok false, s') →
  TilePlatform.heap s' = TilePlatform.heap s ∧
  PlatformObject.x_coord <$> TilePlatform.heap s' !! obj =
    PlatformObject.x_coord <$> TilePlatform.heap s !! obj ∧
  PlatformObject.y_coord <$> TilePlatform.heap s' !! obj =
    PlatformObject.y_coord <$> TilePlatform.heap s !! obj.
Proof. by intros (ln & -> & _)%place_false_inv. Qed.

(** Test 3.7 of the demonstration: HouseA, placed at (1, 1), offered again
    at (6, 1). *)
Lemma place_failure_keeps_coordinates_witness :
  TilePlatform.heap (snd (TilePlatform.place_object 6 1 0%nat demo_placed)) =
    TilePlatform.heap demo_placed ∧
  PlatformObject.x_coord <$>
    TilePlatform.heap (snd (TilePlatform.place_object 6 1 0%nat demo_placed)) !! 0%nat =
    PlatformObject.x_coord <$> TilePlatform.heap demo_placed !! 0%nat ∧
  PlatformObject.y_coord <$>
    TilePlatform.heap (snd (TilePlatform.place_object 6 1 0%nat demo_placed)) !! 0%nat =
    PlatformObject.y_coord <$> TilePlatform.heap demo_placed !! 0%nat.
Proof.
  apply (place_failure_keeps_coordinates demo_placed 6 1 0%nat).
  vm_compute. reflexivity.
Defined.

Example rejected_rock_stays_unplaced :
  let s' := snd (TilePlatform.place_object 10 0 3%nat demo_placed) in
  PlatformObject.x_coord <$> TilePlatform.heap s' !! 3%nat = Some (-1) ∧
  PlatformObject.y_coord <$> TilePlatform.heap s' !! 3%nat = Some (-1).
Proof. vm_compute. done. Qed.

Example rejected_house_stays_in_place :
  let s' := snd (TilePlatform.place_object 6 1 0%nat demo_placed) in
  PlatformObject.x_coord <$> TilePlatform.heap s' !! 0%nat = Some 1 ∧
  PlatformObject.y_coord <$> TilePlatform.heap s' !! 0%nat = Some 1.
Proof. vm_compute. done. Qed.

(** ** The collision check and the mask *)

(** The mask of the object passed plays no part in [place_object]: with
    any other mask the call returns the same value, prints the same lines
    and leaves the same platform. *)
Lemma place_ignores_mask x y obj m s :
  let r := TilePlatform.place_object x y obj s in
  let r' := TilePlatform.place_object x y obj (remask obj m s) in
  fst r' = fst r ∧
  TilePlatform.self (snd r') = TilePlatform.self (snd r) ∧
  TilePlatform.stdout (snd r') = TilePlatform.stdout (snd r).
Proof.
  unfold TilePlatform.place_object, remask.
  cbn [TilePlatform.heap TilePlatform.self TilePlatform.stdout].
  rewrite list_lookup_alter_eq.
  destruct (TilePlatform.heap s !! obj) as [o|]; cbn; [|done].
  case_decide; [done|].
  destruct (TilePlatform._is_valid_position _ _ _ _ _); cbn; [|done].
  destruct (TilePlatform._is_area_free _ _ _ _ _) as [[|]|]; [|done..].
  destruct (TilePlatform.fill_rows _ _ _ _) as [[[]|e] g']; done.
Qed.

(** C2. For a request that is on the grid and whose id is not registered,
    [place_object] reports a collision exactly when some cell of the full
    bounding box [[x, x+width) x [y, y+length)] holds an object, and
    returns [True] exactly when none does; the cells are those of the whole
    box, whatever the mask says there, and replacing the mask of the object
    never changes the value returned. *)
Theorem place_collision_iff_box_occupied s x y obj o :
  wf (TilePlatform.self s) →
  TilePlatform.heap s !! obj = Some o →
  TilePlatform.objects (TilePlatform.self s) !! PlatformObject.id o = None →
  ¬ out_of_bounds (TilePlatform.self s) x y
      (PlatformObject.width_tiles o) (PlatformObject.length_tiles o) →
  let occupied :=
    ∃ cx cy r,
      (x ≤ cx < x + PlatformObject.width_tiles o ∧
       y ≤ cy < y + PlatformObject.length_tiles o) ∧
      cell_at (TilePlatform.grid (TilePlatform.self s)) cy cx = Some (Obj r) in
  (occupied ↔
     fst (TilePlatform.place_object x y obj s) = Ok false ∧
     reported (snd (TilePlatform.place_object x y obj s)) = Some CollisionError) ∧
  (¬ occupied ↔ fst (TilePlatform.place_object x y obj s) = Ok true) ∧
  (∀ m, fst (TilePlatform.place_object x y obj (remask obj m s)) =
        fst (TilePlatform.place_object x y obj s)).
Proof.
  intros Hwf Ho Hreg Hin occupied.
  assert (occupied ↔ box_occupied (TilePlatform.grid (TilePlatform.self s)) x y
            (PlatformObject.width_tiles o) (PlatformObject.length_tiles o)) as Hocc
    by done.
  split_and!.
  - destruct (place_inside x y obj s o Hwf Ho Hreg Hin)
      as [[Hbox ->]|[Hfree (g' & -> & _)]]; simpl.
    + rewrite reported_print. tauto.
    + apply box_free_not_occupied in Hfree. split; [tauto|]. by intros [? _].
  - destruct (place_inside x y obj s o Hwf Ho Hreg Hin)
      as [[Hbox ->]|[Hfree (g' & -> & _)]]; simpl.
    + split; [tauto|done].
    + apply box_free_not_occupied in Hfree. tauto.
  - intros m. apply place_ignores_mask.
Qed.

(** Test 3.8 of the demonstration: the 3 x 3 tree with the irregular mask
    at (5, 1). *)
Lemma place_collision_iff_box_occupied_witness :
  let occupied :=
    ∃ cx cy r,
      (5 ≤ cx < 5 + 3 ∧ 1 ≤ cy < 1 + 3) ∧
      cell_at (TilePlatform.grid (TilePlatform.self demo_placed)) cy cx = Some (Obj r) in
  (occupied ↔
     fst (TilePlatform.place_object 5 1 1%nat demo_placed) = Ok false ∧
     reported (snd (TilePlatform.place_object 5 1 1%nat demo_placed)) =
       Some CollisionError) ∧
  (¬ occupied ↔ fst (TilePlatform.place_object 5 1 1%nat demo_placed) = Ok true) ∧
  (∀ m, fst (TilePlatform.place_object 5 1 1%nat (remask 1%nat m demo_placed)) =
        fst (TilePlatform.place_object 5 1 1%nat demo_placed)).
Proof.
  apply (place_collision_iff_box_occupied demo_placed 5 1 1%nat
           (PlatformObject.mk "TreeX" 3 3 (-1) (-1) [[1; 1; 1]; [1; 1; 0]; [1; 0; 0]])).
  - split; [reflexivity|]. vm_compute. repeat constructor.
  - vm_compute. reflexivity.
  - vm_compute. reflexivity.
  - unfold out_of_bounds. vm_compute. intros [H|[H|[H|H]]]; discriminate H.
Defined.

(** ** The commit *)

(** C3. When the id is not registered, the bounding box is on the grid and
    every cell of the box is empty, [place_object] returns [True]; the
    cells of the box then hold a reference to the object and the other
    cells are as before, the registry maps the object's id to the object,
    and the object's coordinates are [(x, y)], its other fields being as
    they were. *)
Theorem place_commits s x y obj o :
  wf (TilePlatform.self s) →
  TilePlatform.heap s !! obj = Some o →
  TilePlatform.objects (TilePlatform.self s) !! PlatformObject.id o = None →
  ¬ out_of_bounds (TilePlatform.self s) x y
      (PlatformObject.width_tiles o) (PlatformObject.length_tiles o) →
  (∀ cx cy,
     x ≤ cx < x + PlatformObject.width_tiles o ∧
     y ≤ cy < y + PlatformObject.length_tiles o →
     cell_at (TilePlatform.grid (TilePlatform.self s)) cy cx = Some Zero) →
  ∃ s',
    TilePlatform.place_object x y obj s = (Ok true, s') ∧
    (∀ cx cy,
       cell_at (TilePlatform.grid (TilePlatform.self s')) cy cx =
       if decide (x ≤ cx < x + PlatformObject.width_tiles o ∧
                  y ≤ cy < y + PlatformObject.length_tiles o)
       then Some (Obj obj)
       else cell_at (TilePlatform.grid (TilePlatform.self s)) cy cx) ∧
    TilePlatform.objects (TilePlatform.self s') =
      <[PlatformObject.id o:=obj]> (TilePlatform.objects (TilePlatform.self s)) ∧
    fst (TilePlatform.get_object_instance (PlatformObject.id o) s') = Some obj ∧
    TilePlatform.heap s' =
      <[obj:=PlatformObject.mk (PlatformObject.id o) (PlatformObject.width_tiles o)
               (PlatformObject.length_tiles o) x y (PlatformObject.shape_mask o)]>
        (TilePlatform.heap s) ∧
    PlatformObject.x_coord <$> TilePlatform.heap s' !! obj = Some x ∧
    PlatformObject.y_coord <$> TilePlatform.heap s' !! obj = Some y.
Proof.
  intros Hwf Ho Hreg Hin Hfree.
  destruct (place_inside x y obj s o Hwf Ho Hreg Hin)
    as [[Hbox _]|[_ (g' & -> & Hg' & Hcells)]].
  { by apply box_free_not_occupied in Hbox. }
  eexists. split; [done|]. simpl.
  pose proof (lookup_lt_Some _ _ _ Ho) as Hlt.
  split_and!; [|done| |done|..].
  - intros cx cy. apply Hcells.
  - by rewrite lookup_insert_eq.
  - by rewrite list_lookup_insert_eq.
  - by rewrite list_lookup_insert_eq.
Qed.

(** Test 3.8 of the demonstration: TreeX at the free position (5, 1). *)
Lemma place_commits_witness :
  ∃ s',
    TilePlatform.place_object 5 1 1%nat demo_placed = (Ok true, s') ∧
    (∀ cx cy,
       cell_at (TilePlatform.grid (TilePlatform.self s')) cy cx =
       if decide (5 ≤ cx < 5 + 3 ∧ 1 ≤ cy < 1 + 3)
       then Some (Obj 1%nat)
       else cell_at (TilePlatform.grid (TilePlatform.self demo_placed)) cy cx) ∧
    TilePlatform.objects (TilePlatform.self s') =
      <["TreeX":=1%nat]> (TilePlatform.objects (TilePlatform.self demo_placed)) ∧
    fst (TilePlatform.get_object_instance "TreeX" s') = Some 1%nat ∧
    TilePlatform.heap s' =
      <[1%nat:=PlatformObject.mk "TreeX" 3 3 5 1 [[1; 1; 1]; [1; 1; 0]; [1; 0; 0]]]>
        (TilePlatform.heap demo_placed) ∧
    PlatformObject.x_coord <$> TilePlatform.heap s' !! 1%nat = Some 5 ∧
    PlatformObject.y_coord <$> TilePlatform.heap s' !! 1%nat = Some 1.
Proof.
  apply (place_commits demo_placed 5 1 1%nat
           (PlatformObject.mk "TreeX" 3 3 (-1) (-1) [[1; 1; 1]; [1; 1; 0]; [1; 0; 0]])).
  - split; [reflexivity|]. vm_compute. repeat constructor.
  - vm_compute. reflexivity.
  - vm_compute. reflexivity.
  - unfold out_of_bounds. vm_compute. intros [H|[H|[H|H]]]; discriminate H.
  - simpl. intros cx cy [Hx Hy].
    assert (cx = 5 ∨ cx = 6 ∨ cx = 7) as Hcx by lia.
    assert (cy = 1 ∨ cy = 2 ∨ cy = 3) as Hcy by lia.
    destruct Hcx as [->|[->| ->]], Hcy as [->|[->| ->]]; vm_compute; reflexivity.
Defined.

(** ** How a rejection reaches the caller *)

(** C8, counterexample. On the platform of the demonstration, offering
    HouseA again (duplicate id), the rock at (10, 0) (out of bounds) and the
    fence at (2, 2) (collision) are three rejections of three kinds, and
    [place_object] returns the same value [False] for all of them: no
    reading of the return value tells the kinds apart. Only the printed
    line differs. *)
Lemma place_failures_return_the_same_value :
  let dup := TilePlatform.place_object 6 1 0%nat demo_placed in
  let oob := TilePlatform.place_object 10 0 3%nat demo_placed in
  let col := TilePlatform.place_object 2 2 4%nat demo_placed in
  (reported (snd dup) = Some DuplicateIdError ∧
   reported (snd oob) = Some OutOfBoundsError ∧
   reported (snd col) = Some CollisionError) ∧
  (fst dup = Ok false ∧ fst oob = Ok false ∧ fst col = Ok false) ∧
  ¬ ∃ kind_of : result bool → failure,
      kind_of (fst dup) = DuplicateIdError ∧
      kind_of (fst oob) = OutOfBoundsError ∧
      kind_of (fst col) = CollisionError.
Proof.
  intros dup oob col.
  assert (fst dup = Ok false) as Hdup by (vm_compute; reflexivity).
  assert (fst oob = Ok false) as Hoob by (vm_compute; reflexivity).
  assert (fst col = Ok false) as Hcol by (vm_compute; reflexivity).
  split_and!; try done; try (vm_compute; reflexivity).
  intros (kind_of & H1 & H2 & _). rewrite Hdup in H1. rewrite Hoob in H2.
  congruence.
Qed.

(** C8, as amended. On a well-formed platform [place_object] never
    raises: it returns the bare boolean, [False] exactly when the id is
    registered, or the bounding box leaves the grid, or a cell of the box
    is occupied, and [True] otherwise. The kind of a rejection is not part
    of the value returned; it is told by the line printed, which reports
    the first of the three checks that fails. *)
Theorem place_returns_bare_boolean s x y obj o :
  wf (TilePlatform.self s) →
  TilePlatform.heap s !! obj = Some o →
  let registered :=
    is_Some (TilePlatform.objects (TilePlatform.self s) !! PlatformObject.id o) in
  let outside :=
    out_of_bounds (TilePlatform.self s) x y
      (PlatformObject.width_tiles o) (PlatformObject.length_tiles o) in
  let occupied :=
    box_occupied (TilePlatform.grid (TilePlatform.self s)) x y
      (PlatformObject.width_tiles o) (PlatformObject.length_tiles o) in
  ∃ b s',
    TilePlatform.place_object x y obj s = (Ok b, s') ∧
    (b = false ↔ registered ∨ outside ∨ occupied) ∧
    (registered → reported s' = Some DuplicateIdError) ∧
    (¬ registered → outside → reported s' = Some OutOfBoundsError) ∧
    (¬ registered → ¬ outside → occupied → reported s' = Some CollisionError) ∧
    (b = true → reported s' = None).
Proof.
  intros Hwf Ho registered outside occupied.
  destruct (decide registered) as [Hreg|Hreg].
  { exists false. eexists. split; [by apply place_duplicate|].
    rewrite reported_print. simpl. split_and!; try done. tauto. }
  assert (TilePlatform.objects (TilePlatform.self s) !! PlatformObject.id o = None)
    as Hnone by (by apply eq_None_not_Some).
  destruct (TilePlatform._is_valid_position (TilePlatform.self s) x y
              (PlatformObject.width_tiles o) (PlatformObject.length_tiles o)) eqn:Hv.
  - apply valid_position_spec in Hv.
    destruct (place_inside x y obj s o Hwf Ho Hnone Hv)
      as [[Hbox ->]|[Hfree (g' & -> & _)]].
    + exists false. eexists. split; [done|].
      rewrite reported_print. simpl. split_and!; try done. tauto.
    + apply box_free_not_occupied in Hfree.
      exists true. eexists. split; [done|].
      rewrite reported_print. simpl. split_and!; try done. split; [done|tauto].
  - apply valid_position_false in Hv.
    exists false. eexists. split; [by apply place_outside|].
    rewrite reported_print. simpl. split_and!; try done. tauto.
Qed.

(** Test 3.6 of the demonstration: the fence on the house. *)
Lemma place_returns_bare_boolean_witness :
  let registered :=
    is_Some (TilePlatform.objects (TilePlatform.self demo_placed) !! "Fence") in
  let outside := out_of_bounds (TilePlatform.self demo_placed) 2 2 2 1 in
  let occupied :=
    box_occupied (TilePlatform.grid (TilePlatform.self demo_placed)) 2 2 2 1 in
  ∃ b s',
    TilePlatform.place_object 2 2 4%nat demo_placed = (Ok b, s') ∧
    (b = false ↔ registered ∨ outside ∨ occupied) ∧
    (registered → reported s' = Some DuplicateIdError) ∧
    (¬ registered → outside → reported s' = Some OutOfBoundsError) ∧
    (¬ registered → ¬ outside → occupied → reported s' = Some CollisionError) ∧
    (b = true → reported s' = None).
Proof.
  apply (place_returns_bare_boolean demo_placed 2 2 4%nat
           (PlatformObject.mk "Fence" 2 1 (-1) (-1) [[1; 1]])).
  - split; [reflexivity|]. vm_compute. repeat constructor.
  - vm_compute. reflexivity.
Defined.

(** ** Construction of objects *)

Lemma any_row_mismatch_Exists m w :
  PlatformObject.any_row_mismatch m w = true ↔
  Exists (fun row => Z.of_nat (length row) ≠ w) m.
Proof.
  unfold PlatformObject.any_row_mismatch. induction m as [|row m IH]; simpl.
  { split; [done|]. by intros ?%Exists_nil. }
  rewrite Exists_cons, orb_true_iff, IH, negb_true_iff, Z.eqb_neq. done.
Qed.

Lemma default_mask_rectangle w l :
  all_true_rectangle (list_times (list_times 1 w) l) (Z.max 0 l) (Z.max 0 w).
Proof.
  unfold all_true_rectangle, list_times. split.
  - rewrite length_replicate. lia.
  - apply Forall_replicate. split.
    + rewrite length_replicate. lia.
    + by apply Forall_replicate.
Qed.

(** C9. [PlatformObject(obj_id, width_tiles, length_tiles, shape_mask)]
    raises, and then a [ValueError], exactly when the id is empty, or a
    mask is supplied whose number of rows differs from [length_tiles] or
    one of whose rows has a number of columns that differs from
    [width_tiles]. Otherwise it yields an object with the given id and
    dimensions and both coordinates [-1]; a supplied mask is kept, and
    without one the mask is [[[1] * width_tiles for _ in
    range(length_tiles)]], the all-ones rectangle of [length_tiles] rows by
    [width_tiles] columns (a negative dimension counting as [0], as [range]
    and [*] have it). Width and length are never a reason to raise. *)
Theorem PlatformObject_init_spec obj_id w l mask :
  (is_raise (PlatformObject.__init__ obj_id w l mask) = true ↔
     obj_id = "" ∨
     ∃ m, mask = Some m ∧
          (Z.of_nat (length m) ≠ l ∨
           Exists (fun row => Z.of_nat (length row) ≠ w) m)) ∧
  (∀ e, PlatformObject.__init__ obj_id w l mask = Raise e → ∃ msg, e = ValueError msg) ∧
  (∀ o, PlatformObject.__init__ obj_id w l mask = Ok o →
        PlatformObject.id o = obj_id ∧
        PlatformObject.width_tiles o = w ∧
        PlatformObject.length_tiles o = l ∧
        PlatformObject.x_coord o = -1 ∧
        PlatformObject.y_coord o = -1 ∧
        match mask with
        | Some m => PlatformObject.shape_mask o = m
        | None =>
            PlatformObject.shape_mask o = replicate (Z.to_nat l) (replicate (Z.to_nat w) 1) ∧
            all_true_rectangle (PlatformObject.shape_mask o) (Z.max 0 l) (Z.max 0 w)
        end) ∧
  (obj_id ≠ "" →
   ∀ w' l', is_raise (PlatformObject.__init__ obj_id w' l' None) = false).
Proof.
  unfold PlatformObject.__init__. split_and!.
  - case_decide as Hid; simpl; [by split; [left|]|].
    destruct mask as [m|]; simpl.
    + destruct (negb (Z.of_nat (length m) =? l) || PlatformObject.any_row_mismatch m w)
        eqn:Hbad; simpl.
      * split; [intros _|done]. right. exists m. split; [done|].
        apply orb_true_iff in Hbad as [Hrows|Hcols].
        -- left. by apply negb_true_iff, Z.eqb_neq in Hrows.
        -- right. by apply any_row_mismatch_Exists.
      * split; [done|]. intros [?|(m' & [= <-] & Hm)]; [done|].
        apply orb_false_iff in Hbad as [Hrows Hcols].
        apply negb_false_iff, Z.eqb_eq in Hrows.
        destruct Hm as [?|Hex%any_row_mismatch_Exists]; [done|congruence].
    + split; [done|]. by intros [?|(m' & [=] & _)].
  - intros e. case_decide; [intros [= <-]; by eexists|].
    destruct mask as [m|]; [|done].
    destruct (_ || _); [intros [= <-]; by eexists|done].
  - intros o. case_decide; [done|].
    destruct mask as [m|].
    + destruct (_ || _); [done|]. by intros [= <-].
    + intros [= <-]. simpl. split_and!; try done. apply default_mask_rectangle.
  - intros Hid w' l'. by rewrite decide_False.
Qed.

(** ** Platforms a caller can build *)

Lemma Inv_ext s s' :
  Inv s →
  TilePlatform.self s' = TilePlatform.self s →
  TilePlatform.heap s' = TilePlatform.heap s →
  Inv s'.
Proof. intros [Hwf Hreg Hcells] Hs Hh. split; rewrite ?Hs, ?Hh; done. Qed.

Lemma Inv_init W L h out s :
  TilePlatform.__init__ W L h out = Ok s → Inv s.
Proof.
  unfold TilePlatform.__init__. case_decide as Hdim; [done|]. intros [= <-].
  split; simpl.
  - unfold wf, shaped, list_times. simpl. split.
    + rewrite length_replicate. lia.
    + apply Forall_replicate. rewrite length_replicate. lia.
  - intros i r. by rewrite lookup_empty.
  - intros cy cx r. split.
    + unfold cell_at, list_times. case_decide; [|done].
      destruct (replicate _ _ !! Z.to_nat cy) as [row|] eqn:Hrow; [|done].
      apply lookup_replicate in Hrow as [-> _]. simpl.
      by intros [? _]%lookup_replicate.
    + intros (o & _ & Hreg & _). by rewrite lookup_empty in Hreg.
Qed.

(** The two outcomes of a [place_object] call on a well-formed platform:
    nothing but a printed line, or a commit. *)
Lemma place_step s x y obj :
  wf (TilePlatform.self s) →
  let s' := snd (TilePlatform.place_object x y obj s) in
  (placed (Place x y obj) s = None ∧
   TilePlatform.self s' = TilePlatform.self s ∧
   TilePlatform.heap s' = TilePlatform.heap s) ∨
  (∃ o g',
     TilePlatform.heap s !! obj = Some o ∧
     TilePlatform.objects (TilePlatform.self s) !! PlatformObject.id o = None ∧
     ¬ out_of_bounds (TilePlatform.self s) x y
         (PlatformObject.width_tiles o) (PlatformObject.length_tiles o) ∧
     box_free (TilePlatform.grid (TilePlatform.self s)) x y
       (PlatformObject.width_tiles o) (PlatformObject.length_tiles o) ∧
     placed (Place x y obj) s =
       Some (Placement (PlatformObject.id o) obj x y
               (PlatformObject.width_tiles o) (PlatformObject.length_tiles o)) ∧
     TilePlatform.self s' =
       TilePlatform.mk (TilePlatform.width (TilePlatform.self s))
         (TilePlatform.length (TilePlatform.self s)) g'
         (<[PlatformObject.id o:=obj]> (TilePlatform.objects (TilePlatform.self s))) ∧
     TilePlatform.heap s' = <[obj:=TilePlatform.set_coords x y o]> (TilePlatform.heap s) ∧
     shaped g' (TilePlatform.width (TilePlatform.self s))
       (TilePlatform.length (TilePlatform.self s)) ∧
     ∀ cy cx,
       cell_at g' cy cx =
       if decide (in_box x y (PlatformObject.width_tiles o)
                    (PlatformObject.length_tiles o) cx cy)
       then Some (Obj obj)
       else cell_at (TilePlatform.grid (TilePlatform.self s)) cy cx).
Proof.
  intros Hwf s'. subst s'. unfold placed.
  destruct (TilePlatform.heap s !! obj) as [o|] eqn:Ho.
  2: { left. unfold TilePlatform.place_object. by rewrite Ho. }
  destruct (decide (is_Some (TilePlatform.objects (TilePlatform.self s)
                               !! PlatformObject.id o))) as [Hreg|Hreg].
  { left. by rewrite (place_duplicate x y obj s o Ho Hreg). }
  apply eq_None_not_Some in Hreg.
  destruct (TilePlatform._is_valid_position (TilePlatform.self s) x y
              (PlatformObject.width_tiles o) (PlatformObject.length_tiles o)) eqn:Hv.
  - apply valid_position_spec in Hv.
    destruct (place_inside x y obj s o Hwf Ho Hreg Hv)
      as [[Hbox ->]|[Hfree (g' & -> & Hg' & Hcells)]].
    + by left.
    + right. exists o, g'. by split_and!.
  - apply valid_position_false in Hv. left.
    by rewrite (place_outside x y obj s o Ho Hreg Hv).
Qed.

Lemma Inv_commit s x y (obj : loc) o g' out :
  Inv s →
  TilePlatform.heap s !! obj = Some o →
  TilePlatform.objects (TilePlatform.self s) !! PlatformObject.id o = None →
  ¬ out_of_bounds (TilePlatform.self s) x y
      (PlatformObject.width_tiles o) (PlatformObject.length_tiles o) →
  box_free (TilePlatform.grid (TilePlatform.self s)) x y
    (PlatformObject.width_tiles o) (PlatformObject.length_tiles o) →
  shaped g' (TilePlatform.width (TilePlatform.self s))
    (TilePlatform.length (TilePlatform.self s)) →
  (∀ cy cx,
     cell_at g' cy cx =
     if decide (in_box x y (PlatformObject.width_tiles o)
                  (PlatformObject.length_tiles o) cx cy)
     then Some (Obj obj)
     else cell_at (TilePlatform.grid (TilePlatform.self s)) cy cx) →
  Inv (TilePlatform.State
         (TilePlatform.mk (TilePlatform.width (TilePlatform.self s))
            (TilePlatform.length (TilePlatform.self s)) g'
            (<[PlatformObject.id o:=obj]> (TilePlatform.objects (TilePlatform.self s))))
         (<[obj:=TilePlatform.set_coords x y o]> (TilePlatform.heap s)) out).
Proof.
  intros [Hwf Hregs Hgrid] Ho Hreg Hin Hfree Hg' Hcells.
  pose proof (lookup_lt_Some _ _ _ Ho) as Hlt.
  assert (∀ i r, TilePlatform.objects (TilePlatform.self s) !! i = Some r → r ≠ obj)
    as Hfresh.
  { intros i r Hi ->. destruct (Hregs i obj Hi) as (o' & Ho' & Hid & _).
    rewrite Ho in Ho'. injection Ho' as <-. rewrite Hid, Hi in Hreg. done. }
  assert (∀ o2 r, TilePlatform.objects (TilePlatform.self s) !! PlatformObject.id o2 = Some r →
                  PlatformObject.id o ≠ PlatformObject.id o2) as Hids.
  { intros o2 r Hr Heq. rewrite <- Heq, Hreg in Hr. done. }
  split; simpl.
  - done.
  - intros i r. destruct (decide (PlatformObject.id o = i)) as [<-|Hne].
    + rewrite lookup_insert_eq. intros [= <-].
      exists (TilePlatform.set_coords x y o).
      rewrite list_lookup_insert_eq by done. split_and!; [done..|].
      by apply valid_position_spec.
    + rewrite lookup_insert_ne by done. intros Hi.
      destruct (Hregs i r Hi) as (o' & Ho' & Hid & Hv). exists o'.
      rewrite list_lookup_insert_ne by (apply not_eq_sym; eauto).
      split_and!; [done..|]. exact Hv.
  - intros cy cx r. rewrite Hcells. case_decide as Hbox.
    + split.
      * intros [= <-]. exists (TilePlatform.set_coords x y o).
        rewrite list_lookup_insert_eq by done. simpl.
        by rewrite lookup_insert_eq.
      * intros (o2 & Ho2 & Hr & Hfp).
        destruct (decide (r = obj)) as [->|Hne]; [done|]. exfalso.
        rewrite list_lookup_insert_ne in Ho2 by done.
        destruct (decide (PlatformObject.id o = PlatformObject.id o2)) as [Heq|Hneq].
        { rewrite <- Heq, lookup_insert_eq in Hr. congruence. }
        rewrite lookup_insert_ne in Hr by done.
        assert (cell_at (TilePlatform.grid (TilePlatform.self s)) cy cx = Some (Obj r))
          as Hcell by (apply Hgrid; eauto).
        rewrite (Hfree _ _ Hbox) in Hcell. done.
    + rewrite Hgrid. split.
      * intros (o2 & Ho2 & Hr & Hfp). exists o2.
        rewrite list_lookup_insert_ne by (apply not_eq_sym; eauto).
        rewrite lookup_insert_ne by eauto. done.
      * intros (o2 & Ho2 & Hr & Hfp).
        destruct (decide (r = obj)) as [->|Hne].
        { rewrite list_lookup_insert_eq in Ho2 by done. injection Ho2 as <-. done. }
        rewrite list_lookup_insert_ne in Ho2 by done.
        destruct (decide (PlatformObject.id o = PlatformObject.id o2)) as [Heq|Hneq].
        { rewrite <- Heq, lookup_insert_eq in Hr. congruence. }
        rewrite lookup_insert_ne in Hr by done. eauto.
Qed.

Lemma Inv_place x y obj s :
  Inv s → Inv (snd (TilePlatform.place_object x y obj s)).
Proof.
  intros Hinv.
  destruct (place_step s x y obj (inv_wf _ Hinv))
    as [(_ & Hs & Hh)|(o & g' & Ho & Hreg & Hin & Hfree & _ & Hs & Hh & Hg' & Hcells)].
  - by apply (Inv_ext s).
  - exact (Inv_ext _ _ (Inv_commit s x y obj o g' [] Hinv Ho Hreg Hin Hfree Hg' Hcells)
             Hs Hh).
Qed.

Lemma Inv_new obj_id w l m s :
  Inv s → Inv (snd (new_object obj_id w l m s)).
Proof.
  intros [Hwf Hregs Hgrid]. unfold new_object.
  destruct (PlatformObject.__init__ obj_id w l m) as [o'|e]; [|done].
  split; simpl.
  - done.
  - intros i r Hi. destruct (Hregs i r Hi) as (o & Ho & Hid & Hv).
    exists o. split_and!; [|done..]. by apply lookup_app_l_Some.
  - intros cy cx r. rewrite Hgrid. split.
    + intros (o & Ho & Hr & Hfp). exists o. split_and!; [|done..].
      by apply lookup_app_l_Some.
    + intros (o & Ho & Hr & Hfp). exists o. split_and!; [|done..].
      destruct (Hregs _ _ Hr) as (o2 & Ho2 & _).
      rewrite (lookup_app_l_Some _ [o'] _ _ Ho2) in Ho. congruence.
Qed.

Lemma Inv_exec c s : Inv s → Inv (exec c s).
Proof.
  destruct c; simpl; [apply Inv_new|apply Inv_place|done].
Qed.

Lemma Inv_run ops s : Inv s → Inv (run ops s).
Proof.
  revert s. induction ops as [|c ops IH]; intros s Hinv; [done|].
  apply IH. by apply Inv_exec.
Qed.

(** ** Histories *)

Lemma recorded_object s p :
  recorded s p →
  ∃ o, TilePlatform.heap s !! placed_obj p = Some o ∧
       PlatformObject.id o = placed_id p ∧
       ∀ cx cy, footprint o cx cy ↔ committed p cx cy.
Proof.
  intros (_ & o & Ho & Hid & Hw & Hl & Hx & Hy). exists o. split_and!; [done..|].
  intros cx cy. unfold footprint, in_box, committed. by rewrite Hw, Hl, Hx, Hy.
Qed.

(** A registered object is never touched again. *)
Lemma registered_stable c s i r o :
  Inv s →
  TilePlatform.objects (TilePlatform.self s) !! i = Some r →
  TilePlatform.heap s !! r = Some o →
  TilePlatform.objects (TilePlatform.self (exec c s)) !! i = Some r ∧
  TilePlatform.heap (exec c s) !! r = Some o.
Proof.
  intros Hinv Hi Hr. destruct c as [obj_id w l m|x y obj|obj_id]; simpl.
  - unfold new_object. destruct (PlatformObject.__init__ obj_id w l m); [|done].
    simpl. split; [done|]. by apply lookup_app_l_Some.
  - destruct (place_step s x y obj (inv_wf _ Hinv))
      as [(_ & -> & ->)|(o' & g' & Ho' & Hreg & _ & _ & _ & -> & -> & _)]; [done|].
    simpl. destruct (inv_registry _ Hinv i r Hi) as (o2 & Ho2 & Hid & _).
    assert (PlatformObject.id o' ≠ i) as Hne by (intros <-; congruence).
    rewrite lookup_insert_ne by done. split; [done|].
    rewrite list_lookup_insert_ne; [done|]. intros <-. congruence.
  - done.
Qed.

Lemma recorded_exec c s p : Inv s → recorded s p → recorded (exec c s) p.
Proof.
  intros Hinv (Hi & o & Ho & Hrest).
  destruct (registered_stable c s _ _ _ Hinv Hi Ho) as [Hi' Ho'].
  split; [done|]. by exists o.
Qed.

Lemma recorded_run ops s p : Inv s → recorded s p → recorded (run ops s) p.
Proof.
  revert s. induction ops as [|c ops IH]; intros s Hinv Hp; [done|].
  apply IH; [by apply Inv_exec|by apply recorded_exec].
Qed.

(** A successful placement registers an id that was free, and is
    recorded. *)
Lemma placed_recorded c s p :
  Inv s → placed c s = Some p →
  TilePlatform.objects (TilePlatform.self s) !! placed_id p = None ∧
  recorded (exec c s) p.
Proof.
  intros Hinv Hp. destruct c as [obj_id w l m|x y obj|obj_id]; [done| |done].
  simpl. destruct (place_step s x y obj (inv_wf _ Hinv))
    as [(Hnone & _)|(o & g' & Ho & Hreg & _ & _ & Hsome & Hs & Hh & _)].
  { by rewrite Hnone in Hp. }
  rewrite Hsome in Hp. injection Hp as <-. simpl. split; [done|].
  pose proof (lookup_lt_Some _ _ _ Ho) as Hlt.
  unfold recorded. rewrite Hs, Hh. simpl.
  rewrite lookup_insert_eq, list_lookup_insert_eq by done.
  split; [done|]. by eexists.
Qed.

(** The registry only grows, and only by successful placements. *)
Lemma registry_step c s i r :
  Inv s →
  TilePlatform.objects (TilePlatform.self (exec c s)) !! i = Some r →
  TilePlatform.objects (TilePlatform.self s) !! i = Some r ∨
  ∃ p, placed c s = Some p ∧ placed_id p = i ∧ placed_obj p = r.
Proof.
  intros Hinv. destruct c as [obj_id w l m|x y obj|obj_id]; simpl.
  - unfold new_object. destruct (PlatformObject.__init__ obj_id w l m); simpl; auto.
  - destruct (place_step s x y obj (inv_wf _ Hinv))
      as [(_ & -> & _)|(o & g' & _ & _ & _ & _ & Hsome & -> & _)]; [auto|].
    simpl. destruct (decide (PlatformObject.id o = i)) as [<-|Hne].
    + rewrite lookup_insert_eq. intros [= <-]. right. by eexists.
    + rewrite lookup_insert_ne by done. auto.
  - auto.
Qed.

Lemma registry_history ops s i r :
  Inv s →
  TilePlatform.objects (TilePlatform.self (run ops s)) !! i = Some r →
  TilePlatform.objects (TilePlatform.self s) !! i = Some r ∨
  ∃ p, p ∈ placements ops s ∧ placed_id p = i ∧ placed_obj p = r.
Proof.
  revert s. induction ops as [|c ops IH]; intros s Hinv; simpl; [auto|].
  intros [Hi|(p & Hp & Hid & Hobj)]%IH; [|right|by apply Inv_exec].
  - destruct (registry_step c s i r Hinv Hi) as [?|(p & Hp & Hid & Hobj)]; [auto|].
    right. exists p. split; [|done]. apply elem_of_app. left.
    rewrite Hp. by apply list_elem_of_singleton.
  - exists p. split; [|done]. apply elem_of_app. by right.
Qed.

Lemma placements_recorded ops s p :
  Inv s → p ∈ placements ops s → recorded (run ops s) p.
Proof.
  revert s. induction ops as [|c ops IH]; intros s Hinv; simpl.
  { by intros ?%elem_of_nil. }
  intros [Hp|Hp]%elem_of_app.
  - destruct (placed c s) as [p0|] eqn:Hc; simpl in Hp; [|by apply elem_of_nil in Hp].
    apply list_elem_of_singleton in Hp as ->.
    apply recorded_run; [by apply Inv_exec|]. by apply placed_recorded.
  - apply IH; [by apply Inv_exec|done].
Qed.

Lemma placements_fresh ops s p :
  Inv s → p ∈ placements ops s →
  TilePlatform.objects (TilePlatform.self s) !! placed_id p = None.
Proof.
  revert s. induction ops as [|c ops IH]; intros s Hinv; simpl.
  { by intros ?%elem_of_nil. }
  intros [Hp|Hp]%elem_of_app.
  - destruct (placed c s) as [p0|] eqn:Hc; simpl in Hp; [|by apply elem_of_nil in Hp].
    apply list_elem_of_singleton in Hp as ->. by apply (placed_recorded c).
  - apply IH in Hp; [|by apply Inv_exec].
    destruct (TilePlatform.objects (TilePlatform.self s) !! placed_id p) as [r|] eqn:Hi;
      [|done].
    destruct (inv_registry _ Hinv _ _ Hi) as (o & Ho & _).
    destruct (registered_stable c s _ _ _ Hinv Hi Ho) as [Hi' _]. congruence.
Qed.

Lemma placements_NoDup ops s :
  Inv s → NoDup (placed_id <$> placements ops s).
Proof.
  revert s. induction ops as [|c ops IH]; intros s Hinv; simpl; [constructor|].
  rewrite fmap_app. pose proof (Inv_exec c s Hinv) as Hinv'.
  destruct (placed c s) as [p0|] eqn:Hc; simpl; [|by apply IH].
  constructor; [|by apply IH].
  intros (q & Hid & Hq)%list_elem_of_fmap.
  apply placements_fresh in Hq; [|done].
  destruct (placed_recorded c s p0 Hinv Hc) as [_ [Hreg _]]. congruence.
Qed.

Lemma placements_from_ops ops s p :
  p ∈ placements ops s → Place (placed_x p) (placed_y p) (placed_obj p) ∈ ops.
Proof.
  revert s. induction ops as [|c ops IH]; intros s; simpl.
  { by intros ?%elem_of_nil. }
  intros [Hp|Hp]%elem_of_app; [|apply elem_of_cons; right; by eapply IH].
  destruct c as [obj_id w l m|x y obj|obj_id]; simpl in Hp;
    [by apply elem_of_nil in Hp| |by apply elem_of_nil in Hp].
  destruct (TilePlatform.place_object x y obj s) as [[[|]|e] s'];
    try (by apply elem_of_nil in Hp).
  destruct (TilePlatform.heap s !! obj) as [o|]; simpl in Hp;
    [|by apply elem_of_nil in Hp].
  apply list_elem_of_singleton in Hp as ->. simpl. apply elem_of_cons. by left.
Qed.

(** ** Lookup *)

Lemma init_registry_empty W L h out s :
  TilePlatform.__init__ W L h out = Ok s →
  TilePlatform.objects (TilePlatform.self s) = ∅.
Proof.
  unfold TilePlatform.__init__. case_decide; [done|]. by intros [= <-].
Qed.

(** C6. [get_object_instance] reads the registry and changes nothing. On a
    platform built by [TilePlatform(W, L)] and any sequence of object
    constructions, placements and lookups, it returns, for the id of a
    placement that succeeded, the very reference that was passed to that
    [place_object] call, and [None] for an id that no successful placement
    carries. *)
Theorem lookup_returns_placed_reference W L h out s0 ops i :
  TilePlatform.__init__ W L h out = Ok s0 →
  let s := run ops s0 in
  snd (TilePlatform.get_object_instance i s) = s ∧
  (∀ p, p ∈ placements ops s0 → placed_id p = i →
        fst (TilePlatform.get_object_instance i s) = Some (placed_obj p) ∧
        Place (placed_x p) (placed_y p) (placed_obj p) ∈ ops) ∧
  ((∀ p, p ∈ placements ops s0 → placed_id p ≠ i) →
   fst (TilePlatform.get_object_instance i s) = None).
Proof.
  intros Hinit s. subst s.
  pose proof (init_registry_empty _ _ _ _ _ Hinit) as Hempty.
  apply Inv_init in Hinit. simpl. split_and!; [done| |].
  - intros p Hp <-. split; [|by eapply placements_from_ops].
    by destruct (placements_recorded ops s0 p Hinit Hp) as [Hreg _].
  - intros Hnone.
    destruct (TilePlatform.objects (TilePlatform.self (run ops s0)) !! i) as [r|] eqn:Hi;
      [|done].
    destruct (registry_history ops s0 i r Hinit Hi) as [Hi0|(p & Hp & Hid & _)].
    + by rewrite Hempty, lookup_empty in Hi0.
    + by destruct (Hnone p Hp).
Qed.

(** The demonstration up to test 3.3: PlantA was placed, the rock was
    rejected. *)
Lemma lookup_returns_placed_reference_witness :
  let ops := [Place 1 1 0%nat; Place 7 4 2%nat; Place 10 0 3%nat] in
  let s := run ops demo_empty in
  snd (TilePlatform.get_object_instance "PlantA" s) = s ∧
  (∀ p, p ∈ placements ops demo_empty → placed_id p = "PlantA" →
        fst (TilePlatform.get_object_instance "PlantA" s) = Some (placed_obj p) ∧
        Place (placed_x p) (placed_y p) (placed_obj p) ∈ ops) ∧
  ((∀ p, p ∈ placements ops demo_empty → placed_id p ≠ "PlantA") →
   fst (TilePlatform.get_object_instance "PlantA" s) = None).
Proof.
  apply (lookup_returns_placed_reference 10 5 demo_objects [] demo_empty
           [Place 1 1 0%nat; Place 7 4 2%nat; Place 10 0 3%nat] "PlantA").
  vm_compute. reflexivity.
Defined.

Example demo_lookups :
  let s := run [Place 1 1 0%nat; Place 7 4 2%nat; Place 10 0 3%nat] demo_empty in
  fst (TilePlatform.get_object_instance "PlantA" s) = Some 2%nat ∧
  fst (TilePlatform.get_object_instance "Rock" s) = None ∧
  fst (TilePlatform.get_object_instance "NonExist" s) = None.
Proof. vm_compute. done. Qed.

(** ** No overlap *)

(** X13. No orphan reference: after the constructor and any sequence of
    operations, every cell that refers to an object lies in the box that a
    successful placement of that very object committed. *)
Lemma occupied_cells_are_committed W L h out s0 ops cx cy r :
  TilePlatform.__init__ W L h out = Ok s0 →
  cell_at (TilePlatform.grid (TilePlatform.self (run ops s0))) cy cx = Some (Obj r) →
  ∃ p, p ∈ placements ops s0 ∧ placed_obj p = r ∧ committed p cx cy.
Proof.
  intros Hinit Hcell.
  pose proof (init_registry_empty _ _ _ _ _ Hinit) as Hempty.
  apply Inv_init in Hinit. pose proof (Inv_run ops s0 Hinit) as Hinv.
  apply (inv_cells _ Hinv) in Hcell as (o & Ho & Hr & Hfp).
  destruct (registry_history ops s0 _ r Hinit Hr) as [Hi0|(p & Hp & Hid & Hobj)].
  { by rewrite Hempty, lookup_empty in Hi0. }
  exists p. split_and!; [done..|].
  destruct (recorded_object _ p (placements_recorded ops s0 p Hinit Hp))
    as (o' & Ho' & _ & Hbox).
  rewrite Hobj, Ho in Ho'. injection Ho' as <-. by apply Hbox.
Qed.

(** C7. On a platform built by [TilePlatform(W, L)], after any sequence
    of object constructions, placements and lookups, two different
    successful placements are of different objects, every cell of the box
    a placement committed still refers to its object, and the boxes of the
    two placements have no cell in common. As the sequence is arbitrary,
    this holds after each successful placement. *)
Theorem placements_never_overlap W L h out s0 ops (j k : nat) p q :
  TilePlatform.__init__ W L h out = Ok s0 →
  placements ops s0 !! j = Some p →
  placements ops s0 !! k = Some q →
  j ≠ k →
  placed_obj p ≠ placed_obj q ∧
  (∀ cx cy, committed p cx cy →
            cell_at (TilePlatform.grid (TilePlatform.self (run ops s0))) cy cx =
              Some (Obj (placed_obj p))) ∧
  (∀ cx cy, committed q cx cy →
            cell_at (TilePlatform.grid (TilePlatform.self (run ops s0))) cy cx =
              Some (Obj (placed_obj q))) ∧
  (∀ cx cy, ¬ (committed p cx cy ∧ committed q cx cy)).
Proof.
  intros Hinit%Inv_init Hj Hk Hjk.
  pose proof (Inv_run ops s0 Hinit) as Hinv.
  pose proof (placements_recorded ops s0 p Hinit (list_elem_of_lookup_2 _ _ _ Hj)) as Hp.
  pose proof (placements_recorded ops s0 q Hinit (list_elem_of_lookup_2 _ _ _ Hk)) as Hq.
  assert (placed_id p ≠ placed_id q) as Hids.
  { intros Heq. apply Hjk.
    apply (NoDup_lookup _ j k (placed_id p) (placements_NoDup ops s0 Hinit)).
    - by rewrite list_lookup_fmap, Hj.
    - by rewrite list_lookup_fmap, Hk, Heq. }
  destruct (recorded_object _ p Hp) as (op & Hop & Hidp & Hboxp).
  destruct (recorded_object _ q Hq) as (oq & Hoq & Hidq & Hboxq).
  assert (placed_obj p ≠ placed_obj q) as Hobjs.
  { intros Heq. rewrite Heq, Hoq in Hop. injection Hop as <-. congruence. }
  assert (∀ cx cy, committed p cx cy →
            cell_at (TilePlatform.grid (TilePlatform.self (run ops s0))) cy cx =
              Some (Obj (placed_obj p))) as Hcp.
  { intros cx cy Hc. apply (inv_cells _ Hinv). exists op. split_and!; [done| |by apply Hboxp].
    rewrite Hidp. apply Hp. }
  assert (∀ cx cy, committed q cx cy →
            cell_at (TilePlatform.grid (TilePlatform.self (run ops s0))) cy cx =
              Some (Obj (placed_obj q))) as Hcq.
  { intros cx cy Hc. apply (inv_cells _ Hinv). exists oq. split_and!; [done| |by apply Hboxq].
    rewrite Hidq. apply Hq. }
  split_and!; [done..|].
  intros cx cy [Hc1 Hc2]. apply Hcp in Hc1. apply Hcq in Hc2. congruence.
Qed.

(** The three placements of the demonstration, the rejected requests in
    between: HouseA and TreeX. *)
Lemma placements_never_overlap_witness :
  let ops := [Place 1 1 0%nat; Place 7 4 2%nat; Place 10 0 3%nat; Place 2 2 4%nat;
              Place 6 1 0%nat; Place 5 1 1%nat] in
  let p := Placement "HouseA" 0%nat 1 1 3 2 in
  let q := Placement "TreeX" 1%nat 5 1 3 3 in
  placed_obj p ≠ placed_obj q ∧
  (∀ cx cy, committed p cx cy →
            cell_at (TilePlatform.grid (TilePlatform.self (run ops demo_empty))) cy cx =
              Some (Obj (placed_obj p))) ∧
  (∀ cx cy, committed q cx cy →
            cell_at (TilePlatform.grid (TilePlatform.self (run ops demo_empty))) cy cx =
              Some (Obj (placed_obj q))) ∧
  (∀ cx cy, ¬ (committed p cx cy ∧ committed q cx cy)).
Proof.
  apply (placements_never_overlap 10 5 demo_objects [] demo_empty
           [Place 1 1 0%nat; Place 7 4 2%nat; Place 10 0 3%nat; Place 2 2 4%nat;
            Place 6 1 0%nat; Place 5 1 1%nat] 0%nat 2%nat).
  - vm_compute. reflexivity.
  - vm_compute. reflexivity.
  - vm_compute. reflexivity.
  - discriminate.
Defined.

(** ** The demonstration *)

(** The objects of [run_tests] are what the constructors build. *)
Example demo_objects_constructed :
  [ PlatformObject.__init__ "HouseA" 3 2 None;
    PlatformObject.__init__ "TreeX" 3 3 (GLOBAL_GROWTH_MASKS "mature_tree");
    Plant_init "PlantA";
    PlatformObject.__init__ "Rock" 1 1 None;
    PlatformObject.__init__ "Fence" 2 1 None ] = Ok <$> demo_objects.
Proof. reflexivity. Qed.

Example demo_platform_constructed :
  TilePlatform.__init__ 10 5 demo_objects [] = Ok demo_empty.
Proof. reflexivity. Qed.

Example constructor_rejections :
  is_raise (PlatformObject.__init__ "" 3 2 None) = true ∧
  is_raise (PlatformObject.__init__ "Bush" 2 2 (Some [[1; 1]])) = true ∧
  is_raise (PlatformObject.__init__ "Bush" 2 2 (Some [[1; 1]; [1]])) = true ∧
  is_raise (PlatformObject.__init__ "Bush" 2 2 (GLOBAL_GROWTH_MASKS "bush")) = false ∧
  is_raise (TilePlatform.__init__ 0 5 [] []) = true ∧
  is_raise (TilePlatform.__init__ 10 (-1) [] []) = true.
Proof. vm_compute. done. Qed.

(** Width and length are not validated: a zero or negative dimension
    yields an object, whose default mask has no cell. *)
Example constructor_accepts_any_dimensions :
  PlatformObject.__init__ "Flat" 0 2 None =
    Ok (PlatformObject.mk "Flat" 0 2 (-1) (-1) [[]; []]) ∧
  PlatformObject.__init__ "Thin" (-1) 1 None =
    Ok (PlatformObject.mk "Thin" (-1) 1 (-1) (-1) [[]]) ∧
  PlatformObject.__init__ "Void" 2 (-3) None =
    Ok (PlatformObject.mk "Void" 2 (-3) (-1) (-1) []).
Proof. vm_compute. done. Qed.

(** Tests 3.1 to 3.8 and the retrieval test: the values returned, the
    lines printed and the final grid. *)
Example demo_run :
  let ops := [Place 1 1 0%nat; Place 7 4 2%nat; Place 10 0 3%nat; Place 0 5 3%nat;
              Place (-1) 0 3%nat; Place 2 2 4%nat; Place 6 1 0%nat; Place 5 1 1%nat] in
  let s := run ops demo_empty in
  TilePlatform.stdout s =
    [ PlatformInitialized 10 5;
      SuccessPlaced "HouseA" 3 2 1 1;
      SuccessPlaced "PlantA" 1 1 7 4;
      ErrorOutOfBounds "Rock" 1 1 10 0;
      ErrorOutOfBounds "Rock" 1 1 0 5;
      ErrorOutOfBounds "Rock" 1 1 (-1) 0;
      ErrorOccupied "Fence" 2 1 2 2;
      ErrorDuplicate "HouseA";
      SuccessPlaced "TreeX" 3 3 5 1 ] ∧
  TilePlatform.grid (TilePlatform.self s) =
    [ [Zero; Zero; Zero; Zero; Zero; Zero; Zero; Zero; Zero; Zero];
      [Zero; Obj 0%nat; Obj 0%nat; Obj 0%nat; Zero; Obj 1%nat; Obj 1%nat; Obj 1%nat; Zero; Zero];
      [Zero; Obj 0%nat; Obj 0%nat; Obj 0%nat; Zero; Obj 1%nat; Obj 1%nat; Obj 1%nat; Zero; Zero];
      [Zero; Zero; Zero; Zero; Zero; Obj 1%nat; Obj 1%nat; Obj 1%nat; Zero; Zero];
      [Zero; Zero; Zero; Zero; Zero; Zero; Zero; Obj 2%nat; Zero; Zero] ] ∧
  placements ops demo_empty =
    [ Placement "HouseA" 0%nat 1 1 3 2;
      Placement "PlantA" 2%nat 7 4 1 1;
      Placement "TreeX" 1%nat 5 1 3 3 ] ∧
  fst (TilePlatform.get_object_instance "PlantA" s) = Some 2%nat ∧
  fst (TilePlatform.get_object_instance "NonExist" s) = None.
Proof. vm_compute. done. Qed.

(** The mask of TreeX is [0] at row 2, column 2 of its box, which at
    (5, 1) is the cell (7, 3). A plant standing there still blocks the
    tree, and the tree once placed blocks the plant there. *)
Example mask_false_cell_still_collides :
  let s := run [Place 7 3 2%nat] demo_empty in
  fst (TilePlatform.place_object 5 1 1%nat s) = Ok false ∧
  reported (snd (TilePlatform.place_object 5 1 1%nat s)) = Some CollisionError.
Proof. vm_compute. done. Qed.

Example mask_false_cell_is_committed :
  let s := run [Place 5 1 1%nat] demo_empty in
  cell_at (TilePlatform.grid (TilePlatform.self s)) 3 7 = Some (Obj 1%nat) ∧
  fst (TilePlatform.place_object 7 3 2%nat s) = Ok false ∧
  reported (snd (TilePlatform.place_object 7 3 2%nat s)) = Some CollisionError.
Proof. vm_compute. done. Qed.

(** * Further properties of the platform *)

(** ** Construction of the platform *)

(** X1. [TilePlatform(width, length)] raises, and then a [ValueError],
    exactly when a dimension is zero or negative. Otherwise the platform
    has the given dimensions, every position of the grid holds [0] (and
    there is no cell outside of it), the registry is empty, the object
    store is untouched and one line was printed. *)
Theorem TilePlatform_init_spec W L h out :
  (is_raise (TilePlatform.__init__ W L h out) = true ↔ W ≤ 0 ∨ L ≤ 0) ∧
  (∀ e, TilePlatform.__init__ W L h out = Raise e → ∃ msg, e = ValueError msg) ∧
  (∀ s, TilePlatform.__init__ W L h out = Ok s →
        TilePlatform.width (TilePlatform.self s) = W ∧
        TilePlatform.length (TilePlatform.self s) = L ∧
        TilePlatform.objects (TilePlatform.self s) = ∅ ∧
        (∀ i, fst (TilePlatform.get_object_instance i s) = None) ∧
        TilePlatform.heap s = h ∧
        TilePlatform.stdout s = out ++ [PlatformInitialized W L] ∧
        ∀ cy cx,
          cell_at (TilePlatform.grid (TilePlatform.self s)) cy cx =
          if decide (0 ≤ cy < L ∧ 0 ≤ cx < W) then Some Zero else None).
Proof.
  unfold TilePlatform.__init__. split_and!.
  - case_decide; simpl; [done|]. split; [done|tauto].
  - intros e. case_decide; [intros [= <-]; by eexists|done].
  - intros s. case_decide as Hdim; [done|]. intros [= <-]. simpl.
    split_and!; try done.
    intros cy cx. unfold cell_at, list_times.
    case_decide as Hnn; [|rewrite decide_False; [done|lia]].
    case_decide as Hin.
    + rewrite lookup_replicate_2 by lia. simpl.
      by rewrite lookup_replicate_2 by lia.
    + destruct (decide (cy < L)) as [Hy|Hy].
      * rewrite lookup_replicate_2 by lia. simpl.
        apply lookup_replicate_None. lia.
      * assert (replicate (Z.to_nat L) (replicate (Z.to_nat W) Zero)
                  !! Z.to_nat cy = None) as ->; [|done].
        apply lookup_replicate_None. lia.
Qed.

(** ** The bounds check and the scan, on their own *)

(** X2. On a platform whose grid has the recorded dimensions,
    [_is_valid_position] accepts a box of positive width and length
    exactly when every cell of the box is a cell of the grid. *)
Theorem valid_position_iff_box_on_grid p x y w l :
  wf p → 0 < w → 0 < l →
  (TilePlatform._is_valid_position p x y w l = true ↔
   ∀ cx cy, in_box x y w l cx cy → is_Some (cell_at (TilePlatform.grid p) cy cx)).
Proof.
  intros Hwf Hw Hl. rewrite valid_position_spec. unfold out_of_bounds, in_box. split.
  - intros Hin cx cy [Hx Hy].
    destruct (shaped_cell _ _ _ cy cx Hwf) as (_ & c & _ & _ & ->); [lia..|by eexists].
  - intros Hbox.
    destruct (Hbox x y) as [c Hc]; [lia|].
    destruct (Hbox (x + w - 1) (y + l - 1)) as [c' Hc']; [lia|].
    apply (cell_at_Some _ _ _ _ _ _ Hwf) in Hc, Hc'. lia.
Qed.

Lemma valid_position_iff_box_on_grid_witness :
  TilePlatform._is_valid_position (TilePlatform.self demo_placed) 5 1 3 3 = true ↔
  ∀ cx cy, in_box 5 1 3 3 cx cy →
           is_Some (cell_at (TilePlatform.grid (TilePlatform.self demo_placed)) cy cx).
Proof.
  apply (valid_position_iff_box_on_grid (TilePlatform.self demo_placed) 5 1 3 3).
  - split; [reflexivity|]. vm_compute. repeat constructor.
  - lia.
  - lia.
Defined.

(** X3. Behind the bounds check the scan is safe and exact: on a grid of
    the recorded dimensions and for a box that [_is_valid_position]
    accepts, [_is_area_free] raises nothing and returns [True] exactly when
    every cell of the box holds [0]. *)
Theorem area_free_behind_bounds_check p x y w l :
  wf p →
  TilePlatform._is_valid_position p x y w l = true →
  ∃ b, TilePlatform._is_area_free p x y w l = Ok b ∧
       (b = true ↔
        ∀ cx cy, x ≤ cx < x + w ∧ y ≤ cy < y + l →
                 cell_at (TilePlatform.grid p) cy cx = Some Zero).
Proof.
  intros Hwf Hv%valid_position_spec.
  destruct (area_free_spec p x y w l Hwf Hv) as [[-> Hfree]|[-> Hocc]].
  - exists true. by split.
  - exists false. split; [done|]. split; [done|].
    intros Hfree. by apply box_free_not_occupied in Hocc.
Qed.

Lemma area_free_behind_bounds_check_witness :
  ∃ b, TilePlatform._is_area_free (TilePlatform.self demo_placed) 2 2 2 1 = Ok b ∧
       (b = true ↔
        ∀ cx cy, 2 ≤ cx < 2 + 2 ∧ 2 ≤ cy < 2 + 1 →
                 cell_at (TilePlatform.grid (TilePlatform.self demo_placed)) cy cx =
                   Some Zero).
Proof.
  apply (area_free_behind_bounds_check (TilePlatform.self demo_placed) 2 2 2 1).
  - split; [reflexivity|]. vm_compute. repeat constructor.
  - vm_compute. reflexivity.
Defined.

Lemma getitem_raises {A} (l : list A) i e : getitem l i = Raise e → e = IndexError.
Proof. unfold getitem. destruct (_ ≫= _); [done|]. by intros [= <-]. Qed.

Lemma getitem_elem_of {A} (l : list A) i a : getitem l i = Ok a → a ∈ l.
Proof.
  unfold getitem. destruct (norm_index (length l) i) as [k|]; simpl; [|done].
  destruct (l !! k) as [a'|] eqn:Hk; [|done]. intros [= <-].
  by eapply list_elem_of_lookup_2.
Qed.

Lemma getitem_beyond {A} (l : list A) i :
  Z.of_nat (length l) ≤ i → getitem l i = Raise IndexError.
Proof.
  intros Hi. unfold getitem, norm_index.
  rewrite decide_False by lia. by rewrite decide_False by lia.
Qed.

Lemma wrap_mod n i : 0 < n → - n ≤ i < n → 0 ≤ i `mod` n < n ∧
  (0 ≤ i → i `mod` n = i) ∧ (i < 0 → i `mod` n = n + i).
Proof.
  intros Hn Hi. split; [by apply Z.mod_pos_bound|]. split.
  - intros ?. apply Z.mod_small. lia.
  - intros ?. symmetry. apply (Z.mod_unique i n (-1)); lia.
Qed.

(** An index in [[-len(l), len(l))] reads the element at the index modulo
    the length. *)
Lemma getitem_wraps {A} (l : list A) i a :
  - Z.of_nat (length l) ≤ i < Z.of_nat (length l) →
  l !! Z.to_nat (i `mod` Z.of_nat (length l)) = Some a →
  getitem l i = Ok a.
Proof.
  intros Hi Ha. destruct (wrap_mod (Z.of_nat (length l)) i) as (_ & Hpos & Hneg); [lia..|].
  unfold getitem, norm_index. case_decide as Hnn.
  - simpl. rewrite Hpos in Ha by lia. by rewrite Ha.
  - rewrite decide_True by lia. simpl. rewrite Hneg in Ha by lia. by rewrite Ha.
Qed.

(** X4. Called without the bounds check, [_is_area_free] raises an
    [IndexError] for a box of positive width and length that starts at or
    beyond the right or the bottom edge of the grid. *)
Theorem area_free_beyond_edge_raises p x y w l :
  wf p → 0 < w → 0 < l →
  TilePlatform.width p ≤ x ∨ TilePlatform.length p ≤ y →
  TilePlatform._is_area_free p x y w l = Raise IndexError.
Proof.
  intros Hwf Hw Hl Hout. unfold TilePlatform._is_area_free, range.
  rewrite (seqZ_cons y), (seqZ_cons x) by lia. simpl.
  destruct (getitem (TilePlatform.grid p) y) as [row|e] eqn:Hrow.
  - destruct Hout as [Hx|Hy].
    + apply getitem_elem_of in Hrow.
      destruct Hwf as [_ Hrows]. rewrite Forall_forall in Hrows.
      rewrite getitem_beyond; [done|]. rewrite (Hrows row Hrow). done.
    + rewrite getitem_beyond in Hrow; [done|]. destruct Hwf as [-> _]. done.
  - by apply getitem_raises in Hrow as ->.
Qed.

(** Test 3.3 of the demonstration, without the bounds check. *)
Lemma area_free_beyond_edge_raises_witness :
  TilePlatform._is_area_free (TilePlatform.self demo_placed) 10 0 1 1 = Raise IndexError.
Proof.
  apply (area_free_beyond_edge_raises (TilePlatform.self demo_placed) 10 0 1 1).
  - split; [reflexivity|]. vm_compute. repeat constructor.
  - lia.
  - lia.
  - left. vm_compute. discriminate.
Defined.

(** X5. Called without the bounds check, [_is_area_free] does not raise
    for a negative coordinate down to minus the dimension: the index wraps,
    and the scan of the single cell at [(x, y)] answers for the cell at
    [(x mod width, y mod length)], which is the reason for the test
    [start_x < 0 or start_y < 0] in [_is_valid_position]. *)
Theorem area_free_negative_index_wraps p x y :
  wf p →
  - TilePlatform.width p ≤ x < TilePlatform.width p →
  - TilePlatform.length p ≤ y < TilePlatform.length p →
  ∃ c, cell_at (TilePlatform.grid p) (y `mod` TilePlatform.length p)
         (x `mod` TilePlatform.width p) = Some c ∧
       TilePlatform._is_area_free p x y 1 1 = Ok (negb (ne_zero c)).
Proof.
  intros Hwf Hx Hy.
  destruct (wrap_mod (TilePlatform.width p) x) as (Hxm & _); [lia..|].
  destruct (wrap_mod (TilePlatform.length p) y) as (Hym & _); [lia..|].
  destruct (shaped_cell _ _ _ _ _ Hwf Hym Hxm) as (row & c & Hrow & Hc & Hat).
  pose proof (shaped_row _ _ _ _ _ Hwf Hrow) as Hlen.
  pose proof Hwf as [HL _].
  exists c. split; [done|].
  unfold TilePlatform._is_area_free, range.
  replace (y + 1 - y) with 1 by lia. replace (x + 1 - x) with 1 by lia.
  rewrite (seqZ_cons y), (seqZ_cons x) by lia. simpl.
  rewrite (getitem_wraps (TilePlatform.grid p) y row) by (rewrite HL; done).
  rewrite (getitem_wraps row x c) by (rewrite Hlen; done).
  by destruct c.
Qed.

(** The cell left of the first column of row 4 is the last cell of the
    row. *)
Lemma area_free_negative_index_wraps_witness :
  ∃ c, cell_at (TilePlatform.grid (TilePlatform.self demo_placed)) (4 `mod` 5)
         ((-3) `mod` 10) = Some c ∧
       TilePlatform._is_area_free (TilePlatform.self demo_placed) (-3) 4 1 1 =
         Ok (negb (ne_zero c)).
Proof.
  apply (area_free_negative_index_wraps (TilePlatform.self demo_placed) (-3) 4).
  - split; [reflexivity|]. vm_compute. repeat constructor.
  - vm_compute. split; [discriminate|reflexivity].
  - vm_compute. split; [discriminate|reflexivity].
Defined.

Example negative_index_reads_the_plant :
  TilePlatform._is_area_free (TilePlatform.self demo_placed) (-3) 4 1 1 = Ok false ∧
  TilePlatform._is_area_free (TilePlatform.self demo_placed) (-3) (-1) 1 1 = Ok false ∧
  TilePlatform._is_area_free (TilePlatform.self demo_placed) (-11) 4 1 1 = Raise IndexError.
Proof. vm_compute. done. Qed.

(** ** Objects without cells *)

Lemma rows_free_no_columns g ys : TilePlatform.rows_free g ys [] = Ok true.
Proof. induction ys as [|y ys IH]; [done|]. simpl. exact IH. Qed.

Lemma fill_rows_no_columns g ys v : TilePlatform.fill_rows g ys [] v = (Ok (), g).
Proof. induction ys as [|y ys IH]; [done|]. simpl. exact IH. Qed.

Lemma range_empty a n : n ≤ 0 → range a (a + n) = [].
Proof.
  intros Hn. unfold range. replace (a + n - a) with n by lia.
  unfold seqZ. by replace (Z.to_nat n) with 0%nat by lia.
Qed.

(** X6. An object whose width or length is zero or negative has an empty
    box: when its id is free and the bounds check passes, [place_object]
    returns [True] whatever the grid holds at the target, even on occupied
    cells; it registers the object and records the coordinates, and the
    grid is left exactly as it was. *)
Theorem place_empty_box_succeeds s x y obj o :
  TilePlatform.heap s !! obj = Some o →
  TilePlatform.objects (TilePlatform.self s) !! PlatformObject.id o = None →
  TilePlatform._is_valid_position (TilePlatform.self s) x y
    (PlatformObject.width_tiles o) (PlatformObject.length_tiles o) = true →
  PlatformObject.width_tiles o ≤ 0 ∨ PlatformObject.length_tiles o ≤ 0 →
  TilePlatform.place_object x y obj s =
    (Ok true,
     TilePlatform.print
       (SuccessPlaced (PlatformObject.id o) (PlatformObject.width_tiles o)
          (PlatformObject.length_tiles o) x y)
       (TilePlatform.State
          (TilePlatform.mk (TilePlatform.width (TilePlatform.self s))
             (TilePlatform.length (TilePlatform.self s))
             (TilePlatform.grid (TilePlatform.self s))
             (<[PlatformObject.id o:=obj]> (TilePlatform.objects (TilePlatform.self s))))
          (<[obj:=TilePlatform.set_coords x y o]> (TilePlatform.heap s))
          (TilePlatform.stdout s))).
Proof.
  intros Ho Hreg Hv Hdim. unfold TilePlatform.place_object.
  rewrite Ho, decide_False by (rewrite Hreg; by intros [? ?]).
  rewrite Hv. simpl. unfold TilePlatform._is_area_free.
  destruct Hdim as [Hw|Hl].
  - rewrite (range_empty x) by done.
    by rewrite rows_free_no_columns, fill_rows_no_columns.
  - by rewrite (range_empty y) by done.
Qed.

(** A fence of width 0 placed on the house of the demonstration. *)
Lemma place_empty_box_succeeds_witness :
  let s := snd (new_object "Line" 0 2 None demo_placed) in
  TilePlatform.place_object 1 1 5%nat s =
    (Ok true,
     TilePlatform.print (SuccessPlaced "Line" 0 2 1 1)
       (TilePlatform.State
          (TilePlatform.mk (TilePlatform.width (TilePlatform.self s))
             (TilePlatform.length (TilePlatform.self s))
             (TilePlatform.grid (TilePlatform.self s))
             (<["Line":=5%nat]> (TilePlatform.objects (TilePlatform.self s))))
          (<[5%nat:=TilePlatform.set_coords 1 1
                      (PlatformObject.mk "Line" 0 2 (-1) (-1) [[]; []])]>
             (TilePlatform.heap s))
          (TilePlatform.stdout s))).
Proof.
  apply (place_empty_box_succeeds (snd (new_object "Line" 0 2 None demo_placed)) 1 1 5%nat
           (PlatformObject.mk "Line" 0 2 (-1) (-1) [[]; []])).
  - vm_compute. reflexivity.
  - vm_compute. reflexivity.
  - vm_compute. reflexivity.
  - left. simpl. lia.
Defined.

(** ** Platforms reached from the constructor *)

Lemma place_keeps_dimensions x y obj s :
  TilePlatform.width (TilePlatform.self (snd (TilePlatform.place_object x y obj s))) =
    TilePlatform.width (TilePlatform.self s) ∧
  TilePlatform.length (TilePlatform.self (snd (TilePlatform.place_object x y obj s))) =
    TilePlatform.length (TilePlatform.self s).
Proof.
  unfold TilePlatform.place_object.
  destruct (TilePlatform.heap s !! obj) as [o|]; [|done].
  case_decide; [done|].
  destruct (TilePlatform._is_valid_position _ _ _ _ _); simpl; [|done].
  destruct (TilePlatform._is_area_free _ _ _ _ _) as [[|]|]; [|done..].
  destruct (TilePlatform.fill_rows _ _ _ _) as [[[]|e] g']; done.
Qed.

Lemma exec_keeps_dimensions c s :
  TilePlatform.width (TilePlatform.self (exec c s)) = TilePlatform.width (TilePlatform.self s) ∧
  TilePlatform.length (TilePlatform.self (exec c s)) = TilePlatform.length (TilePlatform.self s).
Proof.
  destruct c as [obj_id w l m|x y obj|obj_id]; simpl.
  - unfold new_object. by destruct (PlatformObject.__init__ obj_id w l m).
  - apply place_keeps_dimensions.
  - done.
Qed.

Lemma run_keeps_dimensions ops s :
  TilePlatform.width (TilePlatform.self (run ops s)) = TilePlatform.width (TilePlatform.self s) ∧
  TilePlatform.length (TilePlatform.self (run ops s)) = TilePlatform.length (TilePlatform.self s).
Proof.
  revert s. induction ops as [|c ops IH]; intros s; [done|]. simpl.
  destruct (IH (exec c s)) as [-> ->]. apply exec_keeps_dimensions.
Qed.

Lemma registered_stable_run ops s i r o :
  Inv s →
  TilePlatform.objects (TilePlatform.self s) !! i = Some r →
  TilePlatform.heap s !! r = Some o →
  TilePlatform.objects (TilePlatform.self (run ops s)) !! i = Some r ∧
  TilePlatform.heap (run ops s) !! r = Some o.
Proof.
  revert s. induction ops as [|c ops IH]; intros s Hinv Hi Hr; [done|]. simpl.
  destruct (registered_stable c s i r o Hinv Hi Hr) as [Hi' Hr'].
  apply IH; [by apply Inv_exec|done..].
Qed.

Lemma run_app ops ops' s : run (ops ++ ops') s = run ops' (run ops s).
Proof. unfold run. apply foldl_app. Qed.

(** X7. The platform keeps its books. After the constructor and any
    sequence of object constructions, placements and lookups, the
    dimensions are the constructor's and the grid has that many rows and
    columns; every registered id names a stored object of that id whose
    box lies on the grid; and a cell refers to an object exactly when that
    object is registered under its id and the cell lies in its box: no
    orphan reference, no missing one. *)
Theorem reachable_platform_is_consistent W L h out s0 ops :
  TilePlatform.__init__ W L h out = Ok s0 →
  let s := run ops s0 in
  (TilePlatform.width (TilePlatform.self s) = W ∧
   TilePlatform.length (TilePlatform.self s) = L ∧
   shaped (TilePlatform.grid (TilePlatform.self s)) W L) ∧
  (∀ i r, TilePlatform.objects (TilePlatform.self s) !! i = Some r →
          ∃ o, TilePlatform.heap s !! r = Some o ∧ PlatformObject.id o = i ∧
               0 ≤ PlatformObject.x_coord o ∧ 0 ≤ PlatformObject.y_coord o ∧
               PlatformObject.x_coord o + PlatformObject.width_tiles o ≤ W ∧
               PlatformObject.y_coord o + PlatformObject.length_tiles o ≤ L) ∧
  (∀ cx cy r,
     cell_at (TilePlatform.grid (TilePlatform.self s)) cy cx = Some (Obj r) ↔
     ∃ o, TilePlatform.heap s !! r = Some o ∧
          TilePlatform.objects (TilePlatform.self s) !! PlatformObject.id o = Some r ∧
          PlatformObject.x_coord o ≤ cx < PlatformObject.x_coord o + PlatformObject.width_tiles o ∧
          PlatformObject.y_coord o ≤ cy < PlatformObject.y_coord o + PlatformObject.length_tiles o).
Proof.
  intros Hinit s.
  destruct (run_keeps_dimensions ops s0) as [HW HL]. fold s in HW, HL.
  assert (TilePlatform.width (TilePlatform.self s0) = W ∧
          TilePlatform.length (TilePlatform.self s0) = L) as [HW0 HL0].
  { revert Hinit. unfold TilePlatform.__init__. case_decide; [done|]. by intros [= <-]. }
  rewrite HW0 in HW. rewrite HL0 in HL.
  pose proof (Inv_run ops s0 (Inv_init _ _ _ _ _ Hinit)) as [Hwf Hregs Hcells]. fold s in Hwf, Hregs, Hcells.
  split_and!; [done..| | |].
  - unfold wf in Hwf. by rewrite HW, HL in Hwf.
  - intros i r Hi. destruct (Hregs i r Hi) as (o & Ho & Hid & Hv).
    exists o. split_and!; [done..| | | |];
      apply valid_position_spec in Hv; unfold out_of_bounds in Hv; lia.
  - intros cx cy r. rewrite Hcells. done.
Qed.

Lemma reachable_platform_is_consistent_witness :
  let s := run [Place 1 1 0%nat; Place 7 4 2%nat; Place 2 2 4%nat] demo_empty in
  (TilePlatform.width (TilePlatform.self s) = 10 ∧
   TilePlatform.length (TilePlatform.self s) = 5 ∧
   shaped (TilePlatform.grid (TilePlatform.self s)) 10 5) ∧
  (∀ i r, TilePlatform.objects (TilePlatform.self s) !! i = Some r →
          ∃ o, TilePlatform.heap s !! r = Some o ∧ PlatformObject.id o = i ∧
               0 ≤ PlatformObject.x_coord o ∧ 0 ≤ PlatformObject.y_coord o ∧
               PlatformObject.x_coord o + PlatformObject.width_tiles o ≤ 10 ∧
               PlatformObject.y_coord o + PlatformObject.length_tiles o ≤ 5) ∧
  (∀ cx cy r,
     cell_at (TilePlatform.grid (TilePlatform.self s)) cy cx = Some (Obj r) ↔
     ∃ o, TilePlatform.heap s !! r = Some o ∧
          TilePlatform.objects (TilePlatform.self s) !! PlatformObject.id o = Some r ∧
          PlatformObject.x_coord o ≤ cx < PlatformObject.x_coord o + PlatformObject.width_tiles o ∧
          PlatformObject.y_coord o ≤ cy < PlatformObject.y_coord o + PlatformObject.length_tiles o).
Proof.
  apply (reachable_platform_is_consistent 10 5 demo_objects [] demo_empty
           [Place 1 1 0%nat; Place 7 4 2%nat; Place 2 2 4%nat]).
  vm_compute. reflexivity.
Defined.

(** X8. Placed means placed for good: once an id is registered, whatever
    is done next, the registry keeps mapping it to the same reference and
    the object referred to keeps all its fields, its coordinates included.
    Nothing is ever moved, replaced or removed. *)
Theorem registered_object_never_changes W L h out s0 ops ops' i r o :
  TilePlatform.__init__ W L h out = Ok s0 →
  TilePlatform.objects (TilePlatform.self (run ops s0)) !! i = Some r →
  TilePlatform.heap (run ops s0) !! r = Some o →
  TilePlatform.objects (TilePlatform.self (run (ops ++ ops') s0)) !! i = Some r ∧
  TilePlatform.heap (run (ops ++ ops') s0) !! r = Some o.
Proof.
  intros Hinit%Inv_init Hi Hr. rewrite run_app.
  apply registered_stable_run; [by apply Inv_run|done..].
Qed.

(** HouseA after test 3.1, and after the rest of the demonstration. *)
Lemma registered_object_never_changes_witness :
  let ops := [Place 1 1 0%nat] in
  let ops' := [Place 7 4 2%nat; Place 10 0 3%nat; Place 2 2 4%nat; Place 6 1 0%nat;
               Place 5 1 1%nat] in
  TilePlatform.objects (TilePlatform.self (run (ops ++ ops') demo_empty)) !! "HouseA" =
    Some 0%nat ∧
  TilePlatform.heap (run (ops ++ ops') demo_empty) !! 0%nat =
    Some (PlatformObject.mk "HouseA" 3 2 1 1 [[1; 1; 1]; [1; 1; 1]]).
Proof.
  apply (registered_object_never_changes 10 5 demo_objects [] demo_empty
           [Place 1 1 0%nat]).
  - vm_compute. reflexivity.
  - vm_compute. reflexivity.
  - vm_compute. reflexivity.
Defined.

(** X9. An object that was placed cannot be placed again: after any
    history in which a placement of the object succeeded, every further
    [place_object] call with that object, at any coordinates, returns
    [False] with the duplicate-id line and leaves platform and store as
    they are. *)
Theorem placed_object_cannot_be_placed_again W L h out s0 ops p x y :
  TilePlatform.__init__ W L h out = Ok s0 →
  p ∈ placements ops s0 →
  ∃ s', TilePlatform.place_object x y (placed_obj p) (run ops s0) = (Ok false, s') ∧
        reported s' = Some DuplicateIdError ∧
        TilePlatform.self s' = TilePlatform.self (run ops s0) ∧
        TilePlatform.heap s' = TilePlatform.heap (run ops s0).
Proof.
  intros Hinit%Inv_init Hp.
  destruct (placements_recorded ops s0 p Hinit Hp) as (Hreg & o & Ho & Hid & _).
  eexists. split.
  - apply (place_duplicate x y _ _ o Ho). rewrite Hid, Hreg. by eexists.
  - by rewrite reported_print.
Qed.

Lemma placed_object_cannot_be_placed_again_witness :
  let ops := [Place 1 1 0%nat; Place 7 4 2%nat] in
  ∃ s', TilePlatform.place_object 0 3 2%nat (run ops demo_empty) = (Ok false, s') ∧
        reported s' = Some DuplicateIdError ∧
        TilePlatform.self s' = TilePlatform.self (run ops demo_empty) ∧
        TilePlatform.heap s' = TilePlatform.heap (run ops demo_empty).
Proof.
  apply (placed_object_cannot_be_placed_again 10 5 demo_objects [] demo_empty
           [Place 1 1 0%nat; Place 7 4 2%nat] (Placement "PlantA" 2%nat 7 4 1 1) 0 3).
  - vm_compute. reflexivity.
  - vm_compute. apply elem_of_cons. right. apply elem_of_cons. left. reflexivity.
Defined.

(** X10. A committed box is defended: after any history, a request whose
    box contains a cell of the box of a successful placement returns
    [False]; when its id is free and its box is on the grid, the rejection
    is the collision. *)
Theorem overlapping_request_is_rejected W L h out s0 ops p x y obj o cx cy :
  TilePlatform.__init__ W L h out = Ok s0 →
  p ∈ placements ops s0 →
  TilePlatform.heap (run ops s0) !! obj = Some o →
  committed p cx cy →
  x ≤ cx < x + PlatformObject.width_tiles o ∧
  y ≤ cy < y + PlatformObject.length_tiles o →
  ∃ s', TilePlatform.place_object x y obj (run ops s0) = (Ok false, s') ∧
        (TilePlatform.objects (TilePlatform.self (run ops s0)) !! PlatformObject.id o = None →
         TilePlatform._is_valid_position (TilePlatform.self (run ops s0)) x y
           (PlatformObject.width_tiles o) (PlatformObject.length_tiles o) = true →
         reported s' = Some CollisionError).
Proof.
  intros Hinit%Inv_init Hp Ho Hc Hbox.
  pose proof (Inv_run ops s0 Hinit) as Hinv.
  pose proof (placements_recorded ops s0 p Hinit Hp) as Hrec.
  destruct (recorded_object _ p Hrec) as (op & Hop & Hidp & Hboxp).
  assert (cell_at (TilePlatform.grid (TilePlatform.self (run ops s0))) cy cx =
            Some (Obj (placed_obj p))) as Hcell.
  { apply (inv_cells _ Hinv). exists op. split_and!; [done| |by apply Hboxp].
    rewrite Hidp. apply Hrec. }
  destruct (decide (is_Some (TilePlatform.objects (TilePlatform.self (run ops s0))
                               !! PlatformObject.id o))) as [Hreg|Hreg].
  { eexists. split; [by apply place_duplicate|]. intros Hnone.
    rewrite Hnone in Hreg. by destruct Hreg. }
  apply eq_None_not_Some in Hreg.
  destruct (TilePlatform._is_valid_position (TilePlatform.self (run ops s0)) x y
              (PlatformObject.width_tiles o) (PlatformObject.length_tiles o)) eqn:Hv.
  - apply valid_position_spec in Hv.
    destruct (place_inside x y obj _ o (inv_wf _ Hinv) Ho Hreg Hv)
      as [[_ ->]|[Hfree _]].
    + eexists. split; [done|]. intros _ _. by rewrite reported_print.
    + rewrite (Hfree cx cy Hbox) in Hcell. done.
  - apply valid_position_false in Hv.
    eexists. split; [by apply place_outside|]. done.
Qed.

(** Test 3.6 of the demonstration: the fence at (2, 2) meets the house in
    the cell (2, 2). *)
Lemma overlapping_request_is_rejected_witness :
  let ops := [Place 1 1 0%nat; Place 7 4 2%nat] in
  ∃ s', TilePlatform.place_object 2 2 4%nat (run ops demo_empty) = (Ok false, s') ∧
        (TilePlatform.objects (TilePlatform.self (run ops demo_empty)) !! "Fence" = None →
         TilePlatform._is_valid_position (TilePlatform.self (run ops demo_empty)) 2 2 2 1 =
           true →
         reported s' = Some CollisionError).
Proof.
  apply (overlapping_request_is_rejected 10 5 demo_objects [] demo_empty
           [Place 1 1 0%nat; Place 7 4 2%nat] (Placement "HouseA" 0%nat 1 1 3 2)
           2 2 4%nat (PlatformObject.mk "Fence" 2 1 (-1) (-1) [[1; 1]]) 2 2).
  - vm_compute. reflexivity.
  - vm_compute. apply elem_of_cons. left. reflexivity.
  - vm_compute. reflexivity.
  - unfold committed. simpl. lia.
  - simpl. lia.
Defined.

(** The cell (3, 2) of the demonstration belongs to the house. *)
Lemma occupied_cells_are_committed_witness :
  let ops := [Place 1 1 0%nat; Place 7 4 2%nat] in
  ∃ p, p ∈ placements ops demo_empty ∧ placed_obj p = 0%nat ∧ committed p 3 2.
Proof.
  apply (occupied_cells_are_committed 10 5 demo_objects [] demo_empty
           [Place 1 1 0%nat; Place 7 4 2%nat] 3 2 0%nat).
  - vm_compute. reflexivity.
  - vm_compute. reflexivity.
Defined.

Lemma registry_size_run ops s :
  Inv s →
  size (TilePlatform.objects (TilePlatform.self (run ops s))) =
    (size (TilePlatform.objects (TilePlatform.self s)) + length (placements ops s))%nat.
Proof.
  revert s. induction ops as [|c ops IH]; intros s Hinv; simpl; [lia|].
  rewrite IH by (by apply Inv_exec). rewrite length_app.
  enough (size (TilePlatform.objects (TilePlatform.self (exec c s))) =
            (size (TilePlatform.objects (TilePlatform.self s)) +
             length (option_list (placed c s)))%nat) by lia.
  destruct c as [obj_id w l m|x y obj|obj_id]; simpl.
  - unfold new_object. destruct (PlatformObject.__init__ obj_id w l m); simpl; lia.
  - destruct (place_step s x y obj (inv_wf _ Hinv))
      as [(Hnone & -> & _)|(o & g' & _ & Hreg & _ & _ & Hsome & -> & _)].
    + simpl in Hnone. rewrite Hnone. simpl. lia.
    + simpl in Hsome. rewrite Hsome. simpl.
      rewrite map_size_insert_None by done. lia.
  - lia.
Qed.

(** X14. The registry holds one entry per successful placement: after the
    constructor and any sequence of operations, the number of registered
    ids is the number of [place_object] calls that returned [True]. *)
Theorem registry_counts_placements W L h out s0 ops :
  TilePlatform.__init__ W L h out = Ok s0 →
  size (TilePlatform.objects (TilePlatform.self (run ops s0))) =
    length (placements ops s0).
Proof.
  intros Hinit. rewrite registry_size_run by (by eapply Inv_init).
  rewrite (init_registry_empty _ _ _ _ _ Hinit), map_size_empty. lia.
Qed.

Lemma registry_counts_placements_witness :
  let ops := [Place 1 1 0%nat; Place 7 4 2%nat; Place 10 0 3%nat; Place 2 2 4%nat;
              Place 6 1 0%nat; Place 5 1 1%nat] in
  size (TilePlatform.objects (TilePlatform.self (run ops demo_empty))) =
    length (placements ops demo_empty).
Proof.
  apply (registry_counts_placements 10 5 demo_objects [] demo_empty
           [Place 1 1 0%nat; Place 7 4 2%nat; Place 10 0 3%nat; Place 2 2 4%nat;
            Place 6 1 0%nat; Place 5 1 1%nat]).
  vm_compute. reflexivity.
Defined.

(** ** Placements in either order *)

Lemma place_true_inv x y obj s s' :
  wf (TilePlatform.self s) →
  TilePlatform.place_object x y obj s = (Ok true, s') →
  ∃ o g',
    TilePlatform.heap s !! obj = Some o ∧
    TilePlatform.objects (TilePlatform.self s) !! PlatformObject.id o = None ∧
    ¬ out_of_bounds (TilePlatform.self s) x y
        (PlatformObject.width_tiles o) (PlatformObject.length_tiles o) ∧
    box_free (TilePlatform.grid (TilePlatform.self s)) x y
      (PlatformObject.width_tiles o) (PlatformObject.length_tiles o) ∧
    s' = TilePlatform.print
           (SuccessPlaced (PlatformObject.id o) (PlatformObject.width_tiles o)
              (PlatformObject.length_tiles o) x y)
           (TilePlatform.State
              (TilePlatform.mk (TilePlatform.width (TilePlatform.self s))
                 (TilePlatform.length (TilePlatform.self s)) g'
                 (<[PlatformObject.id o:=obj]>
                    (TilePlatform.objects (TilePlatform.self s))))
              (<[obj:=TilePlatform.set_coords x y o]> (TilePlatform.heap s))
              (TilePlatform.stdout s)) ∧
    shaped g' (TilePlatform.width (TilePlatform.self s))
      (TilePlatform.length (TilePlatform.self s)) ∧
    ∀ cy cx,
      cell_at g' cy cx =
      if decide (in_box x y (PlatformObject.width_tiles o)
                   (PlatformObject.length_tiles o) cx cy)
      then Some (Obj obj)
      else cell_at (TilePlatform.grid (TilePlatform.self s)) cy cx.
Proof.
  intros Hwf.
  destruct (TilePlatform.heap s !! obj) as [o|] eqn:Ho.
  2: { unfold TilePlatform.place_object. by rewrite Ho. }
  destruct (decide (is_Some (TilePlatform.objects (TilePlatform.self s)
                               !! PlatformObject.id o))) as [Hreg|Hreg].
  { by rewrite (place_duplicate x y obj s o Ho Hreg). }
  apply eq_None_not_Some in Hreg.
  destruct (TilePlatform._is_valid_position (TilePlatform.self s) x y
              (PlatformObject.width_tiles o) (PlatformObject.length_tiles o)) eqn:Hv.
  - apply valid_position_spec in Hv.
    destruct (place_inside x y obj s o Hwf Ho Hreg Hv)
      as [[_ ->]|[Hfree (g' & -> & Hg' & Hcells)]]; [done|].
    intros [= <-]. exists o, g'. by split_and!.
  - apply valid_position_false in Hv.
    by rewrite (place_outside x y obj s o Ho Hreg Hv).
Qed.

(** Two grids of the same shape with the same cells are the same grid. *)
Lemma shaped_ext g1 g2 W L :
  shaped g1 W L → shaped g2 W L →
  (∀ cy cx, cell_at g1 cy cx = cell_at g2 cy cx) → g1 = g2.
Proof.
  intros Hg1 Hg2 Hcells. apply list_eq. intros i.
  destruct (g1 !! i) as [row1|] eqn:Hrow1.
  - destruct (lookup_lt_is_Some_2 g2 i) as [row2 Hrow2].
    { apply lookup_lt_Some in Hrow1. destruct Hg1 as [? _], Hg2 as [? _]. lia. }
    rewrite Hrow2. f_equal. apply list_eq. intros j.
    specialize (Hcells (Z.of_nat i) (Z.of_nat j)). unfold cell_at in Hcells.
    rewrite !decide_True, !Nat2Z.id, Hrow1, Hrow2 in Hcells by lia. exact Hcells.
  - symmetry. apply lookup_ge_None. apply lookup_ge_None in Hrow1.
    destruct Hg1 as [? _], Hg2 as [? _]. lia.
Qed.

(** X11. The order of two successful placements does not matter. If, on
    a grid of the recorded dimensions, placing [a] and then [b] succeeds,
    then placing [b] and then [a] succeeds as well, and both orders leave
    the same platform (grid and registry) and the same object store; only
    the order of the two printed lines differs. *)
Theorem successful_placements_commute s xa ya a xb yb b sa sab :
  wf (TilePlatform.self s) →
  TilePlatform.place_object xa ya a s = (Ok true, sa) →
  TilePlatform.place_object xb yb b sa = (Ok true, sab) →
  ∃ sb sba,
    TilePlatform.place_object xb yb b s = (Ok true, sb) ∧
    TilePlatform.place_object xa ya a sb = (Ok true, sba) ∧
    TilePlatform.self sba = TilePlatform.self sab ∧
    TilePlatform.heap sba = TilePlatform.heap sab.
Proof.
  intros Hwf Ha Hb.
  destruct (place_true_inv _ _ _ _ _ Hwf Ha)
    as (oa & ga & Hoa & Hra & Hina & Hfa & -> & Hga & Hca).
  assert (wf (TilePlatform.self
                (TilePlatform.print
                   (SuccessPlaced (PlatformObject.id oa) (PlatformObject.width_tiles oa)
                      (PlatformObject.length_tiles oa) xa ya)
                   (TilePlatform.State
                      (TilePlatform.mk (TilePlatform.width (TilePlatform.self s))
                         (TilePlatform.length (TilePlatform.self s)) ga
                         (<[PlatformObject.id oa:=a]>
                            (TilePlatform.objects (TilePlatform.self s))))
                      (<[a:=TilePlatform.set_coords xa ya oa]> (TilePlatform.heap s))
                      (TilePlatform.stdout s))))) as Hwfa by exact Hga.
  destruct (place_true_inv _ _ _ _ _ Hwfa Hb)
    as (ob & gab & Hob & Hrb & Hinb & Hfb & -> & Hgab & Hcab).
  simpl in Hob, Hrb, Hinb, Hfb, Hgab, Hcab. clear Ha Hb Hwfa.
  pose proof (lookup_lt_Some _ _ _ Hoa) as Hlta.
  apply lookup_insert_None in Hrb as [Hrb Hids].
  assert (a ≠ b) as Hab.
  { intros <-. rewrite list_lookup_insert_eq in Hob by done.
    injection Hob as <-. done. }
  rewrite list_lookup_insert_ne in Hob by done.
  pose proof (lookup_lt_Some _ _ _ Hob) as Hltb.
  assert (∀ cx cy,
            in_box xb yb (PlatformObject.width_tiles ob) (PlatformObject.length_tiles ob) cx cy →
            ¬ in_box xa ya (PlatformObject.width_tiles oa) (PlatformObject.length_tiles oa) cx cy ∧
            cell_at (TilePlatform.grid (TilePlatform.self s)) cy cx = Some Zero) as Hdisj.
  { intros cx cy Hin. specialize (Hfb cx cy Hin). rewrite Hca in Hfb.
    case_decide; [done|]. by split. }
  destruct (place_inside xb yb b s ob Hwf Hob Hrb Hinb)
    as [[(cx & cy & r & Hin & Hr) _]|(_ & gb & Heqb & Hgb & Hcb)].
  { destruct (Hdisj cx cy Hin) as [_ Hz]. congruence. }
  rewrite Heqb.
  set (sb := TilePlatform.print _ _).
  assert (wf (TilePlatform.self sb)) as Hwfb by exact Hgb.
  assert (TilePlatform.heap sb !! a = Some oa) as Hoa'.
  { subst sb. simpl. by rewrite list_lookup_insert_ne. }
  assert (TilePlatform.objects (TilePlatform.self sb) !! PlatformObject.id oa = None) as Hra'.
  { subst sb. simpl. by rewrite lookup_insert_ne. }
  assert (¬ out_of_bounds (TilePlatform.self sb) xa ya
              (PlatformObject.width_tiles oa) (PlatformObject.length_tiles oa)) as Hina'
    by exact Hina.
  destruct (place_inside xa ya a sb oa Hwfb Hoa' Hra' Hina')
    as [[(cx & cy & r & Hin & Hr) _]|(_ & gba & Heqa & Hgba & Hcba)].
  { subst sb. simpl in Hr. rewrite Hcb in Hr. case_decide as Hinb'.
    - by destruct (Hdisj cx cy Hinb').
    - rewrite (Hfa cx cy Hin) in Hr. done. }
  exists sb. eexists. split; [done|]. split; [exact Heqa|].
  subst sb. simpl. simpl in Hgba, Hcba. split.
  - f_equal.
    + apply (shaped_ext _ _ _ _ Hgba Hgab). intros cy cx.
      rewrite Hcba, Hcab, Hcb, Hca.
      repeat case_decide; try done. by destruct (Hdisj cx cy).
    + by apply insert_insert_ne.
  - by apply list_insert_insert_ne.
Qed.

(** The house and the plant of the demonstration. *)
Lemma successful_placements_commute_witness :
  ∃ sb sba,
    TilePlatform.place_object 7 4 2%nat demo_empty = (Ok true, sb) ∧
    TilePlatform.place_object 1 1 0%nat sb = (Ok true, sba) ∧
    TilePlatform.self sba = TilePlatform.self demo_placed ∧
    TilePlatform.heap sba = TilePlatform.heap demo_placed.
Proof.
  apply (successful_placements_commute demo_empty 1 1 0%nat 7 4 2%nat
           (snd (TilePlatform.place_object 1 1 0%nat demo_empty)) demo_placed).
  - split; [reflexivity|]. vm_compute. repeat constructor.
  - vm_compute. reflexivity.
  - vm_compute. reflexivity.
Defined.

(** ** Plants *)

(** X12. A plant is a 1 x 1 object with the seedling mask, which passes
    the mask validation: [Plant(plant_id, ...)] raises exactly when the id
    is empty, and otherwise yields the unplaced object of that id, width 1,
    length 1 and mask [[[1]]]. *)
Theorem Plant_init_spec plant_id :
  (is_raise (Plant_init plant_id) = true ↔ plant_id = "") ∧
  (∀ e, Plant_init plant_id = Raise e → ∃ msg, e = ValueError msg) ∧
  (∀ o, Plant_init plant_id = Ok o →
        o = PlatformObject.mk plant_id 1 1 (-1) (-1) [[1]]).
Proof.
  unfold Plant_init, GLOBAL_GROWTH_MASKS. simpl.
  unfold PlatformObject.__init__. simpl.
  case_decide; simpl; split_and!; try done.
  - intros e [= <-]. by eexists.
  - by intros o [= <-].
Qed.

(** X15. A plant fits on every free cell: on a grid of the recorded
    dimensions, placing a freshly built plant whose id is free on a cell
    that holds [0] returns [True], writes the reference into that cell and
    no other, and makes the plant the answer to the lookup of its id. *)
Theorem plant_fits_any_free_cell s plant_id r o x y :
  wf (TilePlatform.self s) →
  Plant_init plant_id = Ok o →
  TilePlatform.heap s !! r = Some o →
  TilePlatform.objects (TilePlatform.self s) !! plant_id = None →
  cell_at (TilePlatform.grid (TilePlatform.self s)) y x = Some Zero →
  ∃ s',
    TilePlatform.place_object x y r s = (Ok true, s') ∧
    (∀ cy cx,
       cell_at (TilePlatform.grid (TilePlatform.self s')) cy cx =
       if decide (cy = y ∧ cx = x) then Some (Obj r)
       else cell_at (TilePlatform.grid (TilePlatform.self s)) cy cx) ∧
    fst (TilePlatform.get_object_instance plant_id s') = Some r ∧
    TilePlatform.heap s' !! r = Some (PlatformObject.mk plant_id 1 1 x y [[1]]).
Proof.
  intros Hwf Hplant Ho Hreg Hcell.
  assert (o = PlatformObject.mk plant_id 1 1 (-1) (-1) [[1]]) as ->.
  { revert Hplant. unfold Plant_init, GLOBAL_GROWTH_MASKS. simpl.
    unfold PlatformObject.__init__. simpl. case_decide; [done|]. by intros [= <-]. }
  pose proof (cell_at_Some _ _ _ _ _ _ Hwf Hcell) as [Hy Hx].
  pose proof (lookup_lt_Some _ _ _ Ho) as Hlt.
  destruct (place_inside x y r s _ Hwf Ho Hreg)
    as [[(cx & cy & r' & Hin & Hr') _]|(_ & g' & -> & Hg' & Hcells)].
  - unfold out_of_bounds. simpl. lia.
  - simpl in Hin. unfold in_box in Hin.
    assert (cx = x ∧ cy = y) as [-> ->] by lia. congruence.
  - eexists. split; [done|]. simpl. split_and!.
    + intros cy cx. rewrite Hcells. unfold in_box. simpl.
      repeat case_decide; try done; exfalso; lia.
    + by rewrite lookup_insert_eq.
    + by rewrite list_lookup_insert_eq.
Qed.

(** PlantA on the corner of the empty demonstration platform. *)
Lemma plant_fits_any_free_cell_witness :
  ∃ s',
    TilePlatform.place_object 0 0 2%nat demo_empty = (Ok true, s') ∧
    (∀ cy cx,
       cell_at (TilePlatform.grid (TilePlatform.self s')) cy cx =
       if decide (cy = 0 ∧ cx = 0) then Some (Obj 2%nat)
       else cell_at (TilePlatform.grid (TilePlatform.self demo_empty)) cy cx) ∧
    fst (TilePlatform.get_object_instance "PlantA" s') = Some 2%nat ∧
    TilePlatform.heap s' !! 2%nat = Some (PlatformObject.mk "PlantA" 1 1 0 0 [[1]]).
Proof.
  apply (plant_fits_any_free_cell demo_empty "PlantA" 2%nat
           (PlatformObject.mk "PlantA" 1 1 (-1) (-1) [[1]]) 0 0).
  - split; [reflexivity|]. vm_compute. repeat constructor.
  - vm_compute. reflexivity.
  - vm_compute. reflexivity.
  - vm_compute. reflexivity.
  - vm_compute. reflexivity.
Defined.

(** ** What a call prints *)

(** X16. On a grid of the recorded dimensions, every [place_object] call
    with a stored object prints exactly one line, after the lines printed
    before, and that line is the success line exactly when the call
    returns [True]. *)
Theorem place_prints_one_line s x y obj o :
  wf (TilePlatform.self s) →
  TilePlatform.heap s !! obj = Some o →
  ∃ b ln s',
    TilePlatform.place_object x y obj s = (Ok b, s') ∧
    TilePlatform.stdout s' = TilePlatform.stdout s ++ [ln] ∧
    (b = true ↔
     ln = SuccessPlaced (PlatformObject.id o) (PlatformObject.width_tiles o)
            (PlatformObject.length_tiles o) x y).
Proof.
  intros Hwf Ho.
  destruct (TilePlatform.place_object x y obj s) as [[[|]|e] s'] eqn:Hcall.
  - destruct (place_true_inv _ _ _ _ _ Hwf Hcall) as (o' & g' & Ho' & _ & _ & _ & -> & _).
    rewrite Ho in Ho'. injection Ho' as <-.
    exists true. eexists. eexists. split; [done|]. by split.
  - destruct (place_false_inv _ _ _ _ _ Hcall) as (ln & -> & [k Hk]).
    exists false, ln. eexists. split; [done|]. split; [done|].
    split; [done|]. intros ->. done.
  - exfalso. revert Hcall.
    destruct (decide (is_Some (TilePlatform.objects (TilePlatform.self s)
                                 !! PlatformObject.id o))) as [Hreg|Hreg].
    { by rewrite (place_duplicate x y obj s o Ho Hreg). }
    apply eq_None_not_Some in Hreg.
    destruct (TilePlatform._is_valid_position (TilePlatform.self s) x y
                (PlatformObject.width_tiles o) (PlatformObject.length_tiles o)) eqn:Hv.
    + apply valid_position_spec in Hv.
      by destruct (place_inside x y obj s o Hwf Ho Hreg Hv)
        as [[_ ->]|[_ (g' & -> & _)]].
    + apply valid_position_false in Hv.
      by rewrite (place_outside x y obj s o Ho Hreg Hv).
Qed.

Lemma place_prints_one_line_witness :
  ∃ b ln s',
    TilePlatform.place_object 2 2 4%nat demo_placed = (Ok b, s') ∧
    TilePlatform.stdout s' = TilePlatform.stdout demo_placed ++ [ln] ∧
    (b = true ↔ ln = SuccessPlaced "Fence" 2 1 2 2).
Proof.
  apply (place_prints_one_line demo_placed 2 2 4%nat
           (PlatformObject.mk "Fence" 2 1 (-1) (-1) [[1; 1]])).
  - split; [reflexivity|]. vm_compute. repeat constructor.
  - vm_compute. reflexivity.
Defined.

(** ** Rendering *)

Lemma str_app_assoc (a b c : string) : (a +:+ b) +:+ c = a +:+ (b +:+ c).
Proof.
  induction a as [|ch a IH]; [done|].
  change (String ch ((a +:+ b) +:+ c) = String ch (a +:+ (b +:+ c))). by rewrite IH.
Qed.

(** On a consistent platform every reference in the grid has its
    object. *)
Lemma Inv_resolved s :
  Inv s →
  Forall (Forall (fun c => ∀ r, c = Obj r → is_Some (TilePlatform.heap s !! r)))
         (TilePlatform.grid (TilePlatform.self s)).
Proof.
  intros Hinv. apply Forall_lookup. intros i row Hrow.
  apply Forall_lookup. intros j c Hc r ->.
  assert (cell_at (TilePlatform.grid (TilePlatform.self s)) (Z.of_nat i) (Z.of_nat j) =
            Some (Obj r)) as Hcell.
  { unfold cell_at. rewrite decide_True by lia. rewrite !Nat2Z.id, Hrow. done. }
  apply (inv_cells _ Hinv) in Hcell as (o & Ho & _). by eexists.
Qed.

Lemma display_row_ok dyns (heap : list PlatformObject.t) row m :
  Forall (fun c => ∀ r, c = Obj r → is_Some (heap !! r)) row →
  ∃ vs m', display_row dyns heap row m = Ok (vs, m').
Proof.
  intros Hrow. revert m. induction Hrow as [|c row Hc Hrow IH]; intros m; simpl.
  { by eexists _, _. }
  assert (∃ v, display_val dyns heap c = Ok v) as [v ->].
  { destruct c as [|r]; simpl; [by eexists|].
    destruct (Hc r eq_refl) as [o ->]. by eexists. }
  destruct (IH (m `max` String.length v)%nat) as (vs & m' & ->). by eexists _, _.
Qed.

Lemma display_grid_ok dyns (heap : list PlatformObject.t) g m :
  Forall (Forall (fun c => ∀ r, c = Obj r → is_Some (heap !! r))) g →
  ∃ vss m', display_grid dyns heap g m = Ok (vss, m').
Proof.
  intros Hg. revert m. induction Hg as [|row g Hrow Hg IH]; intros m; simpl.
  { by eexists _, _. }
  destruct (display_row_ok dyns heap row m Hrow) as (vs & m1 & ->).
  destruct (IH m1) as (vss & m' & ->). by eexists _, _.
Qed.

Lemma row_str_ok dyns (heap : list PlatformObject.t) row m acc :
  Forall (fun c => ∀ r, c = Obj r → is_Some (heap !! r)) row →
  ∃ ln, row_str dyns heap row m acc = Ok ln.
Proof.
  intros Hrow. revert acc. induction Hrow as [|c row Hc Hrow IH]; intros acc; simpl.
  { by eexists. }
  assert (∃ v, cell_str dyns heap c = Ok v) as [v ->].
  { destruct c as [|r]; simpl; [by eexists|].
    destruct (Hc r eq_refl) as [o ->]. by eexists. }
  apply IH.
Qed.

Lemma grid_rows_ok dyns (heap : list PlatformObject.t) i g m :
  Forall (Forall (fun c => ∀ r, c = Obj r → is_Some (heap !! r))) g →
  ∃ lns, grid_rows dyns heap i g m = Ok lns ∧ length lns = length g.
Proof.
  intros Hg. revert i. induction Hg as [|row g Hrow Hg IH]; intros i; simpl.
  { by eexists. }
  destruct (row_str_ok dyns heap row m (ljust 2 (pretty i) +:+ "|") Hrow) as [ln ->].
  destruct (IH (S i)) as (lns & -> & Hlen). eexists. split; [done|]. simpl. by rewrite Hlen.
Qed.

Lemma reachable_dimensions W L h out s0 ops :
  TilePlatform.__init__ W L h out = Ok s0 →
  TilePlatform.width (TilePlatform.self (run ops s0)) = W ∧
  TilePlatform.length (TilePlatform.self (run ops s0)) = L.
Proof.
  intros Hinit. destruct (run_keeps_dimensions ops s0) as [-> ->].
  revert Hinit. unfold TilePlatform.__init__. case_decide; [done|]. by intros [= <-].
Qed.

(** X17. [display] works on every platform the operations can build:
    after the constructor and any sequence of object constructions,
    placements and lookups, whatever the classes and names of the objects,
    it raises nothing and prints the title, the header, the rule, one line
    per grid row and the footer, [length + 4] strings in all. *)
Theorem display_prints_every_row W L h out s0 ops dyns :
  TilePlatform.__init__ W L h out = Ok s0 →
  ∃ header rule rows,
    display dyns (run ops s0) =
      Ok ([display_title; header; rule] ++ rows ++ [display_footer]) ∧
    Z.of_nat (length rows) = L.
Proof.
  intros Hinit. destruct (reachable_dimensions W L h out s0 ops Hinit) as [_ HL].
  apply Inv_init in Hinit. pose proof (Inv_run ops s0 Hinit) as Hinv.
  pose proof (Inv_resolved _ Hinv) as Hres. unfold display.
  destruct (display_grid_ok dyns _ _ 1%nat Hres) as (vss & m & ->).
  destruct (grid_rows_ok dyns _ 0 _ m Hres) as (rows & -> & Hlen).
  eexists _, _, rows. split; [done|]. rewrite Hlen, <- HL.
  by destruct (inv_wf _ Hinv) as [-> _].
Qed.

Lemma display_prints_every_row_witness :
  ∃ header rule rows,
    display demo_dyns (run [Place 1 1 0%nat; Place 7 4 2%nat] demo_empty) =
      Ok ([display_title; header; rule] ++ rows ++ [display_footer]) ∧
    Z.of_nat (length rows) = 5.
Proof.
  apply (display_prints_every_row 10 5 demo_objects [] demo_empty
           [Place 1 1 0%nat; Place 7 4 2%nat] demo_dyns).
  vm_compute. reflexivity.
Defined.

Lemma display_row_zero dyns (heap : list PlatformObject.t) n m :
  display_row dyns heap (replicate n Zero) (S m) = Ok (replicate n ".", S m).
Proof.
  induction n as [|n IH]; [done|].
  change (display_row dyns heap (replicate (S n) Zero) (S m))
    with (match display_row dyns heap (replicate n Zero) (S m `max` 1) with
          | Raise e => Raise e
          | Ok (vs, m') => Ok ("." :: vs, m')
          end).
  replace (S m `max` 1)%nat with (S m) by lia. by rewrite IH.
Qed.

Lemma display_grid_zero dyns (heap : list PlatformObject.t) k n m :
  display_grid dyns heap (replicate k (replicate n Zero)) (S m) =
    Ok (replicate k (replicate n "."), S m).
Proof.
  induction k as [|k IH]; [done|]. simpl. by rewrite display_row_zero, IH.
Qed.

Lemma row_str_zero dyns (heap : list PlatformObject.t) n acc :
  row_str dyns heap (replicate n Zero) 1 acc = Ok (acc +:+ str_times ". " n).
Proof.
  revert acc. induction n as [|n IH]; intros acc.
  { simpl. f_equal. induction acc as [|ch acc IHacc]; [done|].
    change (String ch acc = String ch (acc +:+ "")). by rewrite <- IHacc. }
  change (row_str dyns heap (replicate (S n) Zero) 1 acc)
    with (row_str dyns heap (replicate n Zero) 1 (acc +:+ ". ")).
  rewrite IH. f_equal. apply str_app_assoc.
Qed.

Lemma grid_rows_zero dyns (heap : list PlatformObject.t) i k n :
  grid_rows dyns heap i (replicate k (replicate n Zero)) 1 =
    Ok ((fun j : nat => ljust 2 (pretty j) +:+ "|" +:+ str_times ". " n) <$> seq i k).
Proof.
  revert i. induction k as [|k IH]; intros i; [done|]. simpl.
  rewrite row_str_zero, IH. by rewrite str_app_assoc.
Qed.

(** X18. The picture of an empty platform: right after
    [TilePlatform(W, L)], [display] prints the title, the header of the
    column numbers, the rule, then for each row its number, a bar and one
    dot and a space per column, and the footer. *)
Theorem display_of_empty_platform W L h out s dyns :
  TilePlatform.__init__ W L h out = Ok s →
  display dyns s =
    Ok ([ display_title;
          "   " +:+ String.concat " " ((fun i : Z => rjust 1 (pretty i)) <$> range 0 W);
          "  " +:+ str_times "-"
                     (String.length
                        ("   " +:+ String.concat " "
                                     ((fun i : Z => rjust 1 (pretty i)) <$> range 0 W)) - 3) ]
        ++ ((fun j : nat => ljust 2 (pretty j) +:+ "|" +:+ str_times ". " (Z.to_nat W))
              <$> seq 0 (Z.to_nat L))
        ++ [display_footer]).
Proof.
  unfold TilePlatform.__init__. case_decide; [done|]. intros [= <-].
  unfold display, list_times. simpl.
  by rewrite display_grid_zero, grid_rows_zero.
Qed.

Lemma display_of_empty_platform_witness :
  display demo_dyns demo_empty =
    Ok ([ display_title;
          "   " +:+ String.concat " " ((fun i : Z => rjust 1 (pretty i)) <$> range 0 10);
          "  " +:+ str_times "-"
                     (String.length
                        ("   " +:+ String.concat " "
                                     ((fun i : Z => rjust 1 (pretty i)) <$> range 0 10)) - 3) ]
        ++ ((fun j : nat => ljust 2 (pretty j) +:+ "|" +:+ str_times ". " (Z.to_nat 10))
              <$> seq 0 (Z.to_nat 5))
        ++ [display_footer]).
Proof.
  apply (display_of_empty_platform 10 5 demo_objects [] demo_empty demo_dyns).
  vm_compute. reflexivity.
Defined.

Example demo_display_empty :
  display demo_dyns demo_empty =
    Ok [ display_title;
         "   0 1 2 3 4 5 6 7 8 9";
         "  -------------------";
         "0 |. . . . . . . . . . ";
         "1 |. . . . . . . . . . ";
         "2 |. . . . . . . . . . ";
         "3 |. . . . . . . . . . ";
         "4 |. . . . . . . . . . ";
         display_footer ].
Proof. vm_compute. reflexivity. Qed.

(** After tests 3.1 and 3.2 the cells show the text of the objects, in
    columns as wide as the longest label [id/name], here [HouseA/HouseA]. *)
Example demo_display_placed :
  ∃ header rule r0 r2 r3,
    display demo_dyns demo_placed =
      Ok [ display_title; header; rule; r0;
           "1 |            . PlatformObject(ID='HouseA', Dim=3x2) PlatformObject(ID='HouseA', Dim=3x2) PlatformObject(ID='HouseA', Dim=3x2)             .             .             .             .             .             . ";
           r2; r3;
           "4 |            .             .             .             .             .             .             . Plant(ID='PlantA', Dim=1x1)             .             . ";
           display_footer ].
Proof. eexists _, _, _, _, _. vm_compute. reflexivity. Qed.


Section Names.
Context (dyns dyns' : loc → dyn) (heap : list PlatformObject.t).
Hypothesis same_class : ∀ r, class_name (dyns r) = class_name (dyns' r).
Hypothesis same_length : ∀ r o,
  heap !! r = Some o →
  String.length (default (PlatformObject.id o) (name (dyns r))) =
    String.length (default (PlatformObject.id o) (name (dyns' r))).







End Names.



(** ** Cells and masks over time *)

(** X21. A cell once taken is never freed nor given to another object:
    if after some history a cell refers to an object, it refers to the same
    object after any continuation. *)
Theorem occupied_cell_stays_occupied W L h out s0 ops ops' cx cy r :
  TilePlatform.__init__ W L h out = Ok s0 →
  cell_at (TilePlatform.grid (TilePlatform.self (run ops s0))) cy cx = Some (Obj r) →
  cell_at (TilePlatform.grid (TilePlatform.self (run (ops ++ ops') s0))) cy cx =
    Some (Obj r).
Proof.
  intros Hinit%Inv_init Hcell. rewrite run_app.
  pose proof (Inv_run ops s0 Hinit) as Hinv.
  pose proof (Inv_run ops' _ Hinv) as Hinv'.
  apply (inv_cells _ Hinv) in Hcell as (o & Ho & Hr & Hfp).
  destruct (registered_stable_run ops' _ _ _ _ Hinv Hr Ho) as [Hr' Ho'].
  apply (inv_cells _ Hinv'). by exists o.
Qed.

(** The cell (2, 1) of the house, after test 3.1 and at the end of the
    demonstration. *)
Lemma occupied_cell_stays_occupied_witness :
  cell_at (TilePlatform.grid (TilePlatform.self
             (run ([Place 1 1 0%nat] ++
                   [Place 7 4 2%nat; Place 2 2 4%nat; Place 6 1 0%nat; Place 5 1 1%nat])
                demo_empty))) 1 2 = Some (Obj 0%nat).
Proof.
  apply (occupied_cell_stays_occupied 10 5 demo_objects [] demo_empty [Place 1 1 0%nat]).
  - vm_compute. reflexivity.
  - vm_compute. reflexivity.
Defined.

(** X20. The default mask against the constructor's own mask check. An
    object built without a mask can be rebuilt from its own fields, mask
    included, when its length is zero or both dimensions are not negative.
    With a negative length, or a positive length and a negative width, the
    default mask is empty where the dimension is negative and the
    constructor rejects it when it is supplied. *)
Theorem default_mask_against_mask_check obj_id w l o :
  PlatformObject.__init__ obj_id w l None = Ok o →
  (is_raise (PlatformObject.__init__ obj_id w l (Some (PlatformObject.shape_mask o))) = true ↔
   l < 0 ∨ (0 < l ∧ w < 0)) ∧
  (¬ (l < 0 ∨ (0 < l ∧ w < 0)) →
   PlatformObject.__init__ obj_id w l (Some (PlatformObject.shape_mask o)) = Ok o).
Proof.
  unfold PlatformObject.__init__. case_decide as Hid; [done|]. intros [= <-]. simpl.
  unfold list_times.
  destruct (negb (Z.of_nat (length (replicate (Z.to_nat l) (replicate (Z.to_nat w) 1))) =? l)
            || PlatformObject.any_row_mismatch
                 (replicate (Z.to_nat l) (replicate (Z.to_nat w) 1)) w) eqn:Hbad.
  - apply orb_true_iff in Hbad as [Hrows|Hcols].
    + apply negb_true_iff, Z.eqb_neq in Hrows. rewrite length_replicate in Hrows.
      simpl. split; [|intros Hok; exfalso; lia]. split; [intros _; lia|done].
    + apply any_row_mismatch_Exists, Exists_exists in Hcols as (row & Hrow & Hne).
      apply elem_of_replicate in Hrow as [-> Hl]. rewrite length_replicate in Hne.
      simpl. split; [|intros Hok; exfalso; lia]. split; [intros _; lia|done].
  - apply orb_false_iff in Hbad as [Hrows Hcols].
    apply negb_false_iff, Z.eqb_eq in Hrows. rewrite length_replicate in Hrows.
    simpl. split; [|done]. split; [done|]. intros [Hl|[Hl Hw]]; [lia|].
    assert (Exists (fun row => Z.of_nat (length row) ≠ w)
              (replicate (Z.to_nat l) (replicate (Z.to_nat w) 1))) as Hex.
    { apply Exists_exists. exists (replicate (Z.to_nat w) 1). split.
      - apply elem_of_replicate. split; [done|lia].
      - rewrite length_replicate. lia. }
    apply any_row_mismatch_Exists in Hex. congruence.
Qed.

(** The rock of the demonstration, and an object of length [-3]. *)
Lemma default_mask_against_mask_check_witness :
  ((is_raise (PlatformObject.__init__ "Rock" 1 1 (Some [[1]])) = true ↔
    1 < 0 ∨ (0 < 1 ∧ 1 < 0)) ∧
   (¬ (1 < 0 ∨ (0 < 1 ∧ 1 < 0)) →
    PlatformObject.__init__ "Rock" 1 1 (Some [[1]]) =
      Ok (PlatformObject.mk "Rock" 1 1 (-1) (-1) [[1]]))) ∧
  ((is_raise (PlatformObject.__init__ "Void" 2 (-3) (Some [])) = true ↔
    -3 < 0 ∨ (0 < -3 ∧ 2 < 0)) ∧
   (¬ (-3 < 0 ∨ (0 < -3 ∧ 2 < 0)) →
    PlatformObject.__init__ "Void" 2 (-3) (Some []) =
      Ok (PlatformObject.mk "Void" 2 (-3) (-1) (-1) []))).
Proof.
  split.
  - apply (default_mask_against_mask_check "Rock" 1 1
             (PlatformObject.mk "Rock" 1 1 (-1) (-1) [[1]])).
    vm_compute. reflexivity.
  - apply (default_mask_against_mask_check "Void" 2 (-3)
             (PlatformObject.mk "Void" 2 (-3) (-1) (-1) [])).
    vm_compute. reflexivity.
Defined.
